(** * Fake credit card detection: Luhn validation, fraud rules, scoring endpoint

    A shallow embedding of [fraud_detection_app.py] and the properties of
    its rule pipeline.

    Python values are modelled as the interpreter has them:
    - a [str] is a sequence of Unicode code points;
    - a [float] is an IEEE 754 binary64 value ([spec_float]);
    - a call either returns a value or raises an exception ([result]);
    - a DataFrame is a table of optional, typed columns updated in place. *)

From Stdlib Require Import ZArith NArith List Bool QArith Qpower Lia Ascii String.
From Stdlib Require Import Floats.SpecFloat.
From stdpp Require Import base option list gmap strings.

Local Open Scope Z_scope.

(** ** Exceptions and results *)

Inductive exn :=
| ValueError
| TypeError
| AttributeError
| OverflowError
| KeyError (key : string).

Inductive result (A : Type) :=
| Returns (a : A)
| Raises (e : exn).
Arguments Returns {A} a.
Arguments Raises {A} e.

Definition rbind {A B} (r : result A) (k : A -> result B) : result B :=
  match r with
  | Returns a => k a
  | Raises e => Raises e
  end.

Notation "'let!' x := r 'in' k" := (rbind r (fun x => k))
  (at level 10, x name, r at level 100, k at level 200).

(** ** Python strings *)

(** A character is a Unicode code point. *)
Definition char := N.
Definition str := list char.

(** ASCII literals, for readable examples. *)
Definition py (s : string) : str :=
  List.map N_of_ascii (list_ascii_of_string s).

Definition SPACE : char := 32%N.

(** [s.replace(' ', '')]: every U+0020 is dropped, nothing else. *)
Definition replace_space (s : str) : str :=
  List.filter (fun c => negb (N.eqb c SPACE)) s.

(** *** The Unicode character database (version 14.0.0, CPython 3.11)

    [decimal_zeros] lists the code point of the digit zero of every run of
    ten decimal digits (Numeric_Type=Decimal); [digit_only] lists the ranges
    of the characters that are Numeric_Type=Digit without being decimal
    (superscripts, subscripts, circled digits and the like). *)
Definition decimal_zeros : list N :=
  [ 0x30; 0x660; 0x6f0; 0x7c0; 0x966; 0x9e6; 0xa66; 0xae6; 0xb66; 0xbe6;
    0xc66; 0xce6; 0xd66; 0xde6; 0xe50; 0xed0; 0xf20; 0x1040; 0x1090; 0x17e0;
    0x1810; 0x1946; 0x19d0; 0x1a80; 0x1a90; 0x1b50; 0x1bb0; 0x1c40; 0x1c50;
    0xa620; 0xa8d0; 0xa900; 0xa9d0; 0xa9f0; 0xaa50; 0xabf0; 0xff10; 0x104a0;
    0x10d30; 0x11066; 0x110f0; 0x11136; 0x111d0; 0x112f0; 0x11450; 0x114d0;
    0x11650; 0x116c0; 0x11730; 0x118e0; 0x11950; 0x11c50; 0x11d50; 0x11da0;
    0x16a60; 0x16ac0; 0x16b50; 0x1d7ce; 0x1d7d8; 0x1d7e2; 0x1d7ec; 0x1d7f6;
    0x1e140; 0x1e2f0; 0x1e950; 0x1fbf0 ]%N.

Definition digit_only : list (N * N) :=
  [ (0xb2, 0xb3); (0xb9, 0xb9); (0x1369, 0x1371); (0x19da, 0x19da);
    (0x2070, 0x2070); (0x2074, 0x2079); (0x2080, 0x2089); (0x2460, 0x2468);
    (0x2474, 0x247c); (0x2488, 0x2490); (0x24ea, 0x24ea); (0x24f5, 0x24fd);
    (0x24ff, 0x24ff); (0x2776, 0x277e); (0x2780, 0x2788); (0x278a, 0x2792);
    (0x10a40, 0x10a43); (0x10e60, 0x10e68); (0x11052, 0x1105a);
    (0x1f100, 0x1f10a) ]%N.

(** [Py_UNICODE_TODECIMAL]: the value of a decimal digit, if it is one. *)
Definition to_decimal (c : char) : option Z :=
  match List.find (fun z => (z <=? c)%N && (c <? z + 10)%N) decimal_zeros with
  | Some z => Some (Z.of_N (c - z))
  | None => None
  end.

Definition is_decimal (c : char) : bool :=
  match to_decimal c with Some _ => true | None => false end.

(** [Py_UNICODE_ISDIGIT]: Numeric_Type is Digit or Decimal. *)
Definition is_digit (c : char) : bool :=
  is_decimal c
  || List.existsb (fun r => (fst r <=? c)%N && (c <=? snd r)%N) digit_only.

(** [s.isdigit()]: every character is a digit and there is at least one. *)
Definition isdigit (s : str) : bool :=
  match s with
  | [] => false
  | _ => List.forallb is_digit s
  end.

(** [int(c)] for a one-character string [c]: only decimal digits are
    accepted; any other character is an invalid literal. *)
Definition int_of_char (c : char) : result Z :=
  match to_decimal c with
  | Some d => Returns d
  | None => Raises ValueError
  end.

(** ** Step 3: rule-based detection, the Luhn check *)

(** The body of [for idx, digit in enumerate(reverse_digits)], with the
    running [idx] and [total]. *)
Fixpoint luhn_loop (reverse_digits : str) (idx : nat) (total : Z) : result Z :=
  match reverse_digits with
  | [] => Returns total
  | digit :: rest =>
      let! n := int_of_char digit in
      let n := if Nat.eqb (idx mod 2) 1
               then (let n := n * 2 in if 9 <? n then n - 9 else n)
               else n in
      luhn_loop rest (S idx) (total + n)
  end.

Definition luhn_algorithm (card_number : str) : result bool :=
  let card_number := replace_space card_number in
  if negb (isdigit card_number) then Returns false
  else
    let reverse_digits := List.rev card_number in
    let! total := luhn_loop reverse_digits 0 0 in
    Returns (total mod 10 =? 0).

(** *** The checksum as the specification words it

    Reverse the digit sequence; a digit at an odd (0-indexed) position is
    doubled, and 9 is subtracted when the doubled value exceeds 9; all the
    digits are summed. *)
Definition luhn_digit (idx : nat) (d : Z) : Z :=
  if Nat.odd idx then (if 9 <? 2 * d then 2 * d - 9 else 2 * d) else d.

Fixpoint luhn_sum_from (idx : nat) (reversed : list Z) : Z :=
  match reversed with
  | [] => 0
  | d :: rest => luhn_digit idx d + luhn_sum_from (S idx) rest
  end.

Definition luhn_checksum (digits : list Z) : Z :=
  luhn_sum_from 0 (List.rev digits).

(** The decimal values of a string of decimal digits (0 for anything else;
    only used on strings of decimal digits). *)
Definition digit_values (s : str) : list Z :=
  List.map (fun c => default 0 (to_decimal c)) s.

(** ** Python floats *)

(** A [float] is a binary64 value: 53 bits of precision, exponents below
    1024. *)
Definition float := spec_float.
Definition prec : Z := 53.
Definition emax : Z := 1024.

(** [float(n)] for an [int]: the nearest double, ties to even; an integer
    that rounds beyond the largest double is an [OverflowError]. *)
Definition float_of_int (n : Z) : result float :=
  match binary_normalize prec emax n 0 false with
  | S754_infinity _ => Raises OverflowError
  | f => Returns f
  end.

(** The double 1000.0. *)
Definition float_1000 : float :=
  Eval vm_compute in binary_normalize prec emax 1000 0 false.

(** [x > 1000] on a float [x]: false on NaN. *)
Definition gt_1000 (x : float) : bool := SFltb float_1000 x.

(** The number a finite float stands for: [m * 2 ^ e] with its sign. *)
Definition float_value (x : float) : option Q :=
  match x with
  | S754_zero _ => Some 0%Q
  | S754_finite s m e => Some (inject_Z (cond_Zopp s (Zpos m)) * 2 ^ e)%Q
  | S754_infinity _ | S754_nan => None
  end.


(** *** [float(s)] for a [str]

    The string is brought to ASCII (Unicode spaces become a space and
    Unicode decimal digits their ASCII digit), single underscores between
    digits are dropped, white space around the literal is skipped, and the
    literal is [inf], [infinity], [nan] or a decimal number with an optional
    fraction and exponent; anything else is a [ValueError]. *)
Definition unicode_spaces : list (N * N) :=
  [ (0x09, 0x0d); (0x1c, 0x20); (0x85, 0x85); (0xa0, 0xa0); (0x1680, 0x1680);
    (0x2000, 0x200a); (0x2028, 0x2029); (0x202f, 0x202f); (0x205f, 0x205f);
    (0x3000, 0x3000) ]%N.

(** [Py_UNICODE_ISSPACE] *)
Definition is_unicode_space (c : char) : bool :=
  List.existsb (fun r => (fst r <=? c)%N && (c <=? snd r)%N) unicode_spaces.

(** [Py_ISSPACE]: the white space of the C locale. *)
Definition is_c_space (c : char) : bool :=
  ((9 <=? c)%N && (c <=? 13)%N) || (c =? 32)%N.

Definition is_ascii_digit (c : char) : bool := (48 <=? c)%N && (c <=? 57)%N.

(** [_PyUnicode_TransformDecimalAndSpaceToASCII]: the first character that
    is neither ASCII, a space nor a decimal digit becomes ['?'] and ends the
    string. *)
Fixpoint transform_decimal_and_space (s : str) : str :=
  match s with
  | [] => []
  | c :: rest =>
      if (c <? 127)%N then c :: transform_decimal_and_space rest
      else if is_unicode_space c then SPACE :: transform_decimal_and_space rest
      else match to_decimal c with
           | Some d => (48 + Z.to_N d)%N :: transform_decimal_and_space rest
           | None => [63%N]
           end
  end.

Definition to_ascii (s : str) : str :=
  if List.forallb (fun c => (c <? 128)%N) s then s
  else transform_decimal_and_space s.

(** [_Py_string_to_number_with_underscores]: an underscore must follow a
    digit and precede a digit. [prev] is the previous character. *)
Fixpoint drop_underscores (prev : char) (s : str) : option str :=
  match s with
  | [] => if (prev =? 95)%N then None else Some []
  | c :: rest =>
      if (c =? 95)%N then
        if is_ascii_digit prev then drop_underscores c rest else None
      else if (prev =? 95)%N && negb (is_ascii_digit c) then None
      else option_map (cons c) (drop_underscores c rest)
  end.

Definition lower (c : char) : char :=
  if (65 <=? c)%N && (c <=? 90)%N then (c + 32)%N else c.

(** [case_insensitive_match]: [word] (in lower case) starts [s]; what
    follows it is returned. *)
Fixpoint match_word (word s : str) : option str :=
  match word, s with
  | [], _ => Some s
  | w :: word', c :: s' =>
      if (lower c =? w)%N then match_word word' s' else None
  | _ :: _, [] => None
  end.

(** The longest prefix of ASCII digits, and what follows it. *)
Fixpoint span_digits (s : str) : str * str :=
  match s with
  | c :: rest =>
      if is_ascii_digit c
      then let '(ds, tl) := span_digits rest in (c :: ds, tl)
      else ([], s)
  | [] => ([], [])
  end.

Definition digits_value (ds : str) : Z :=
  List.fold_left (fun acc c => 10 * acc + (Z.of_N c - 48)) ds 0.

Definition take_sign (s : str) : bool * str :=
  match s with
  | 45%N :: rest => (true, rest)
  | 43%N :: rest => (false, rest)
  | _ => (false, s)
  end.

(** The double nearest to [m * 10 ^ e] (ties to even), with the sign
    [neg]; [m] is not negative. For a negative [e] the quotient is taken
    with 64 bits or more and a sticky bit, which rounds as the exact
    quotient does. *)
Definition round_decimal (neg : bool) (m e : Z) : float :=
  let sign z := if neg then - z else z in
  if m =? 0 then S754_zero neg
  else if 0 <=? e then binary_normalize prec emax (sign (m * 10 ^ e)) 0 false
  else
    let den := 10 ^ (- e) in
    let s := Z.max 0 (64 + Z.log2_up den - Z.log2 m) in
    let q := (m * 2 ^ s) / den in
    let sticky := if (m * 2 ^ s) mod den =? 0 then 0 else 1 in
    binary_normalize prec emax (sign (2 * q + sticky)) (- (s + 1)) false.

(** The exponent part [e[+-]digits]; without a digit it is not part of the
    number. *)
Definition parse_exponent (s : str) : Z * str :=
  match s with
  | c :: rest =>
      if (lower c =? 101)%N then
        let '(eneg, rest') := take_sign rest in
        let '(ds, tl) := span_digits rest' in
        match ds with
        | [] => (0, s)
        | _ => ((if eneg then - digits_value ds else digits_value ds), tl)
        end
      else (0, s)
  | [] => (0, s)
  end.

(** [_Py_dg_strtod] on the text after the sign: digits, an optional point
    and digits (one digit at least), an optional exponent. *)
Definition parse_decimal (neg : bool) (s : str) : option (float * str) :=
  let '(ip, s1) := span_digits s in
  let '(fp, s2) :=
    match s1 with
    | 46%N :: s1' => span_digits s1'
    | _ => ([], s1)
    end in
  match ip, fp with
  | [], [] => None
  | _, _ =>
      let '(ex, s3) := parse_exponent s2 in
      Some (round_decimal neg (digits_value (ip ++ fp))
              (ex - Z.of_nat (List.length fp)), s3)
  end.

(** [_Py_parse_inf_or_nan] on the text after the sign. *)
Definition parse_inf_or_nan (neg : bool) (s : str) : option (float * str) :=
  match match_word (py "inf") s with
  | Some rest =>
      match match_word (py "inity") rest with
      | Some rest' => Some (S754_infinity neg, rest')
      | None => Some (S754_infinity neg, rest)
      end
  | None =>
      match match_word (py "nan") s with
      | Some rest => Some (S754_nan, rest)
      | None => None
      end
  end.

Fixpoint skip_c_spaces (s : str) : str :=
  match s with
  | c :: rest => if is_c_space c then skip_c_spaces rest else s
  | [] => []
  end.

(** [float_from_string_inner] *)
Definition float_of_ascii (s : str) : result float :=
  let s := skip_c_spaces s in
  let '(neg, body) := take_sign s in
  let parsed := match parse_decimal neg body with
                | Some r => Some r
                | None => parse_inf_or_nan neg body
                end in
  match parsed with
  | Some (x, rest) =>
      match skip_c_spaces rest with
      | [] => Returns x
      | _ => Raises ValueError
      end
  | None => Raises ValueError
  end.

Definition float_of_str (s : str) : result float :=
  let s := to_ascii s in
  if List.existsb (fun c => (c =? 95)%N) s then
    match drop_underscores 0%N s with
    | Some s' => float_of_ascii s'
    | None => Raises ValueError
    end
  else float_of_ascii s.


(** ** DataFrames *)

(** A cell of a column the pipeline does not look at. *)
Inductive cell :=
| CStr (s : str)
| CFloat (x : float)
| CBool (b : bool).

(** The table after preprocessing: each column the pipeline reads or writes
    is present or not, with its dtype; [CardNumber] holds strings, [Amount]
    is float64, [Timestamp] is datetime64: an int64 count of nanoseconds
    since 1970, the least int64 standing for NaT ([None] here), [TimeGap]
    is float64 (NaN included), the flags are bool. Rows are positions in
    the columns. *)
Record DataFrame := mk_frame {
  CardNumber : option (list str);
  Amount : option (list float);
  Timestamp : option (list (option Z));
  LuhnValid : option (list bool);
  HighAmount : option (list bool);
  TimeGap : option (list float);
  SuspiciousTime : option (list bool);
  Fraudulent : option (list bool);
  Anomaly : option (list bool);
  other_columns : gmap string (list cell)
}.

(** [df[column] = values], one function per column written. *)
Definition set_LuhnValid (v : list bool) (df : DataFrame) : DataFrame :=
  mk_frame (CardNumber df) (Amount df) (Timestamp df) (Some v) (HighAmount df)
    (TimeGap df) (SuspiciousTime df) (Fraudulent df) (Anomaly df)
    (other_columns df).

Definition set_HighAmount (v : list bool) (df : DataFrame) : DataFrame :=
  mk_frame (CardNumber df) (Amount df) (Timestamp df) (LuhnValid df) (Some v)
    (TimeGap df) (SuspiciousTime df) (Fraudulent df) (Anomaly df)
    (other_columns df).

Definition set_TimeGap (v : list float) (df : DataFrame) : DataFrame :=
  mk_frame (CardNumber df) (Amount df) (Timestamp df) (LuhnValid df)
    (HighAmount df) (Some v) (SuspiciousTime df) (Fraudulent df) (Anomaly df)
    (other_columns df).

Definition set_SuspiciousTime (v : list bool) (df : DataFrame) : DataFrame :=
  mk_frame (CardNumber df) (Amount df) (Timestamp df) (LuhnValid df)
    (HighAmount df) (TimeGap df) (Some v) (Fraudulent df) (Anomaly df)
    (other_columns df).

Definition set_Fraudulent (v : list bool) (df : DataFrame) : DataFrame :=
  mk_frame (CardNumber df) (Amount df) (Timestamp df) (LuhnValid df)
    (HighAmount df) (TimeGap df) (SuspiciousTime df) (Some v) (Anomaly df)
    (other_columns df).

Definition set_Anomaly (v : list bool) (df : DataFrame) : DataFrame :=
  mk_frame (CardNumber df) (Amount df) (Timestamp df) (LuhnValid df)
    (HighAmount df) (TimeGap df) (SuspiciousTime df) (Fraudulent df) (Some v)
    (other_columns df).

(** A function that works on the frame it is given, in place: it ends with a
    value or an exception, and leaves the frame as it was at that point. *)
Definition inplace (A : Type) := DataFrame -> result A * DataFrame.

Definition ret {A} (a : A) : inplace A := fun df => (Returns a, df).

Definition bind {A B} (c : inplace A) (k : A -> inplace B) : inplace B :=
  fun df =>
    match c df with
    | (Returns a, df') => k a df'
    | (Raises e, df') => (Raises e, df')
    end.

Notation "'do' x <- c ; k" := (bind c (fun x => k))
  (at level 10, x name, c at level 100, k at level 200).
Notation "c ;; k" := (bind c (fun _ => k))
  (at level 100, k at level 200, right associativity).

(** A computation that does not touch the frame. *)
Definition lift {A} (r : result A) : inplace A := fun df => (r, df).

(** [df[column]]: a [KeyError] when the column is absent. *)
Definition getitem {A} (column : string) (field : DataFrame -> option A)
  : inplace A :=
  fun df =>
    match field df with
    | Some v => (Returns v, df)
    | None => (Raises (KeyError column), df)
    end.

Definition setitem (set : DataFrame -> DataFrame) : inplace unit :=
  fun df => (Returns tt, set df).

(** [if column in df.columns: body] *)
Definition when_column {A} (field : DataFrame -> option A)
  (body : A -> inplace unit) : inplace unit :=
  fun df =>
    match field df with
    | Some v => body v df
    | None => (Returns tt, df)
    end.

(** [series.apply(f)]: [f] is called on the cells in order; the first
    exception ends the call. *)
Fixpoint apply {A B} (f : A -> result B) (cells : list A) : result (list B) :=
  match cells with
  | [] => Returns []
  | c :: rest =>
      let! b := f c in
      let! bs := apply f rest in
      Returns (b :: bs)
  end.

(** The bounds of an int64; the least int64 is how NaT is stored. *)
Definition int64_min : Z := - 2 ^ 63.
Definition int64_max : Z := 2 ^ 63 - 1.

(** The difference of two timestamps, on their int64 nanoseconds: NaT when
    one of them is NaT, and an [OverflowError] when the difference is not
    an int64. A difference that is the least int64 reads as NaT. *)
Definition sub_datetime (t prev : option Z) : result (option Z) :=
  match prev, t with
  | Some a, Some b =>
      if (b - a <? int64_min) || (int64_max <? b - a)
      then Raises OverflowError
      else if b - a =? int64_min then Returns None
      else Returns (Some (b - a))
  | _, _ => Returns None
  end.

(** [series.diff()] on timestamps: the difference to the previous row, NaT
    on the first row; one difference that overflows ends the call. [prev]
    is the previous row. *)
Fixpoint diff_from (prev : option Z) (ts : list (option Z))
  : result (list (option Z)) :=
  match ts with
  | [] => Returns []
  | t :: rest =>
      let! d := sub_datetime t prev in
      let! ds := diff_from t rest in
      Returns (d :: ds)
  end.

Definition diff (ts : list (option Z)) : result (list (option Z)) :=
  diff_from None ts.

(** The doubles 1e9, the nanoseconds of a second, and 60.0. *)
Definition float_1e9 : float :=
  Eval vm_compute in binary_normalize prec emax 1000000000 0 false.
Definition float_60 : float :=
  Eval vm_compute in binary_normalize prec emax 60 0 false.

(** [.dt.total_seconds()]: the int64 nanoseconds as float64, divided by the
    float64 1e9; NaN on NaT. *)
Definition total_seconds (gap : option Z) : float :=
  match gap with
  | Some ns => SFdiv prec emax (binary_normalize prec emax ns 0 false) float_1e9
  | None => S754_nan
  end.

(** [gap < 60] on float64: false on NaN. *)
Definition lt_60 (gap : float) : bool := SFltb gap float_60.

(** [a & b] and [a | b] on bool columns of one frame, row by row. *)
Definition series_and (a b : list bool) : list bool := zip_with andb a b.
Definition series_or (a b : list bool) : list bool := zip_with orb a b.

(** ** Step 3: rule-based detection on a batch *)

(** Rule 1: Luhn validation for card numbers. *)
Definition luhn_rule : inplace unit :=
  when_column CardNumber (fun cards =>
    do valid <- lift (apply luhn_algorithm cards);
    setitem (set_LuhnValid valid)).

(** Rule 2: large transaction detection. *)
Definition high_amount_rule : inplace unit :=
  when_column Amount (fun amounts =>
    setitem (set_HighAmount (List.map gt_1000 amounts))).

(** Rule 3: transactions in a short period, if Timestamp exists. *)
Definition suspicious_time_rule : inplace unit :=
  when_column Timestamp (fun ts =>
    do gaps <- lift (diff ts);
    setitem (set_TimeGap (List.map total_seconds gaps)) ;;
    do gaps <- getitem "TimeGap" TimeGap;
    setitem (set_SuspiciousTime (List.map lt_60 gaps))).

(** The verdict: [LuhnValid & (HighAmount | SuspiciousTime)]. *)
Definition mark_fraudulent : inplace unit :=
  do luhn_valid <- getitem "LuhnValid" LuhnValid;
  do high_amount <- getitem "HighAmount" HighAmount;
  do suspicious_time <- getitem "SuspiciousTime" SuspiciousTime;
  setitem (set_Fraudulent
             (series_and luhn_valid (series_or high_amount suspicious_time))).

Definition rule_based_detection : inplace unit :=
  luhn_rule ;; high_amount_rule ;; suspicious_time_rule ;; mark_fraudulent.

(** The Luhn rule raises on no card number of the batch. *)
Definition luhn_rule_completes (df : DataFrame) : Prop :=
  forall cards, CardNumber df = Some cards ->
    exists valid, apply luhn_algorithm cards = Returns valid.

(** The flags of rule 3 on a column of timestamps. *)
Definition suspicious_flags (ts : list (option Z)) : result (list bool) :=
  let! gaps := diff ts in
  Returns (List.map lt_60 (List.map total_seconds gaps)).

(** Rule 3 raises on no pair of consecutive timestamps of the batch. *)
Definition time_rule_completes (df : DataFrame) : Prop :=
  forall ts, Timestamp df = Some ts ->
    exists flags, suspicious_flags ts = Returns flags.

(** The gap between two timestamps in seconds, as an exact number. *)
Definition seconds (ns : Z) : Q := ns # 1000000000.

(** Every timestamp of the column is less than 2^63 nanoseconds (about 292
    years) away from the one of the row before it. *)
Definition gaps_fit (ts : list (option Z)) : Prop :=
  forall i a b, ts !! i = Some (Some a) -> ts !! S i = Some (Some b) ->
    - 2 ^ 63 < b - a < 2 ^ 63.

(** A two-row batch: the same valid card twice, amounts 1500.0 and 500.0,
    the second row [gap_ns] nanoseconds after the first. *)
Definition float_1500 : float :=
  Eval vm_compute in binary_normalize prec emax 1500 0 false.
Definition float_500 : float :=
  Eval vm_compute in binary_normalize prec emax 500 0 false.

Definition two_rows (gap_ns : Z) : DataFrame :=
  mk_frame (Some [py "4539148803436467"; py "4539148803436467"])
    (Some [float_1500; float_500])
    (Some [Some 1700000000000000000; Some (1700000000000000000 + gap_ns)])
    None None None None None None ∅.

(** A two-row batch with all three columns: a card number that fails the
    checksum and one that passes it, both with the amount 1500.0, ten
    seconds apart. *)
Definition gate_rows : DataFrame :=
  mk_frame (Some [py "4539148803436468"; py "4539148803436467"])
    (Some [float_1500; float_1500])
    (Some [Some 1700000000000000000; Some 1700000010000000000])
    None None None None None None ∅.

(** The same two transactions on 1700-01-01 and on 2200-01-01, in this
    order and in the reverse order. *)
Definition date_1700 : Z := -8520336000000000000.
Definition date_2200 : Z := 7258118400000000000.

Definition centuries_apart : DataFrame :=
  mk_frame (Some [py "4539148803436467"; py "4539148803436467"])
    (Some [float_1500; float_500])
    (Some [Some date_1700; Some date_2200])
    None None None None None None ∅.

Definition centuries_back : DataFrame :=
  mk_frame (Some [py "4539148803436467"; py "4539148803436467"])
    (Some [float_1500; float_500])
    (Some [Some date_2200; Some date_1700])
    None None None None None None ∅.

(** A column of timestamps in chronological order. *)
Definition chronological (ts : list (option Z)) : Prop :=
  forall i a b, ts !! i = Some (Some a) -> ts !! S i = Some (Some b) -> a <= b.

(** A one-row batch with a card number and an amount, and no Timestamp
    column. *)
Definition no_timestamp : DataFrame :=
  mk_frame (Some [py "4539148803436467"]) (Some [float_1500]) None
    None None None None None None ∅.

(** ** Step 4: anomaly detection *)

(** What the model is fitted on: [df[['Amount']]] or the whole frame. *)
Inductive features :=
| AmountOnly (amounts : list float)
| WholeFrame (df : DataFrame).

(** [lambda x: True if x == -1 else False] *)
Definition is_outlier (x : Z) : bool := if x =? -1 then true else false.

Section AnomalyDetection.

(** The isolation forest of scikit-learn, with its 100 estimators,
    contamination 0.02 and random state 42: [fit] may reject its input,
    [predict] labels every row -1 (outlier) or 1 (inlier). *)
Variable model : Type.
Variable fit : features -> result model.
Variable predict : model -> features -> result (list Z).

Definition anomaly_detection : inplace unit :=
  fun df =>
    let feats := match Amount df with
                 | Some amounts => AmountOnly amounts
                 | None => WholeFrame df
                 end in
    (do m <- lift (fit feats);
     do labels <- lift (predict m feats);
     setitem (set_Anomaly (List.map is_outlier labels))) df.

End AnomalyDetection.

(** ** Step 5: the scoring endpoint *)

(** A decoded JSON value, as [request.json] hands it to the handler. *)
#[local] Set Warnings "-register-all".
Inductive json :=
| JNull
| JBool (b : bool)
| JInt (n : Z)
| JFloat (x : float)
| JStr (s : str)
| JArray (items : list json)
| JObject (members : list (string * json)).

(** [data.get(key)]: [None] when the key is absent. *)
Definition dict_get (data : gmap string json) (key : string) : json :=
  default JNull (data !! key).

(** [float(v)] *)
Definition py_float (v : json) : result float :=
  match v with
  | JFloat x => Returns x
  | JInt n => float_of_int n
  | JBool b => float_of_int (if b then 1 else 0)
  | JStr s => float_of_str s
  | JNull | JArray _ | JObject _ => Raises TypeError
  end.

(** [luhn_algorithm(v)]: only a [str] has the [replace] the function starts
    with. *)
Definition call_luhn_algorithm (v : json) : result bool :=
  match v with
  | JStr s => luhn_algorithm s
  | _ => Raises AttributeError
  end.

(** The handler of [POST /detect]; the response dictionary keeps the order
    in which its keys are written. *)
Definition detect_fraud (data : gmap string json)
  : result (list (string * json)) :=
  let card_number := dict_get data "CardNumber" in
  let! amount := py_float (dict_get data "Amount") in
  let! luhn_valid := call_luhn_algorithm card_number in
  let high_amount := gt_1000 amount in
  let is_fraudulent := luhn_valid && high_amount in
  Returns [ ("CardNumber"%string, card_number);
            ("Amount"%string, JFloat amount);
            ("LuhnValid"%string, JBool luhn_valid);
            ("HighAmount"%string, JBool high_amount);
            ("Fraudulent"%string, JBool is_fraudulent) ].

(** What the framework sends back: the handler's dictionary with status 200,
    and status 500 (Internal Server Error) for an exception the handler does
    not catch; the server keeps running in both cases. *)
Record http_response := mk_response {
  status : Z;
  body : option (list (string * json))
}.

Definition post_detect (data : gmap string json) : http_response :=
  match detect_fraud data with
  | Returns response => mk_response 200 (Some response)
  | Raises _ => mk_response 500 None
  end.

Definition client_error (r : http_response) : Prop := 400 <= status r < 500.
Definition server_error (r : http_response) : Prop := 500 <= status r < 600.

(** ** Vocabulary of the further properties *)

(** The ASCII character of a digit value from 0 to 9, and the value of an
    ASCII digit. *)
Definition ascii_digit (d : Z) : char := Z.to_N (48 + d).
Definition ascii_value (c : char) : Z := Z.of_N c - 48.

(** A string made of ASCII digits only. *)
Definition ascii_digits (s : str) : Prop :=
  List.forallb is_ascii_digit s = true.

(** A column, when it is present, has [n] rows; and a frame whose columns
    all have [n] rows. *)
Definition has_rows {A} (n : nat) (col : option (list A)) : Prop :=
  forall v, col = Some v -> length v = n.

Definition rows (n : nat) (df : DataFrame) : Prop :=
  has_rows n (CardNumber df) /\ has_rows n (Amount df) /\
  has_rows n (Timestamp df) /\ has_rows n (LuhnValid df) /\
  has_rows n (HighAmount df) /\ has_rows n (TimeGap df) /\
  has_rows n (SuspiciousTime df) /\ has_rows n (Fraudulent df) /\
  has_rows n (Anomaly df) /\
  (forall k v, other_columns df !! k = Some v -> length v = n).

(** The columns the batch functions only read. *)
Definition inputs (df : DataFrame)
  : option (list str) * option (list float) * option (list (option Z))
    * gmap string (list cell) :=
  (CardNumber df, Amount df, Timestamp df, other_columns df).

(** * Properties *)

(** ** The character tables on ASCII *)

Lemma below_128 (P : N -> bool) :
  List.forallb P (List.map N.of_nat (List.seq 0 128)) = true ->
  forall c : N, (c < 128)%N -> P c = true.
Proof.
  intros H c Hc. rewrite List.forallb_forall in H. apply H.
  apply List.in_map_iff. exists (N.to_nat c). split.
  - apply N2Nat.id.
  - apply List.in_seq. lia.
Qed.

(** The ASCII digits are decimal digits, with their usual value. *)
Lemma to_decimal_ascii_digit (c : char) :
  is_ascii_digit c = true -> to_decimal c = Some (Z.of_N c - 48).
Proof.
  intros H.
  assert (Hc : (c < 128)%N).
  { unfold is_ascii_digit in H. apply andb_true_iff in H as [_ H].
    apply N.leb_le in H. lia. }
  pose (P := fun c : N =>
    implb (is_ascii_digit c)
      (match to_decimal c with
       | Some d => d =? Z.of_N c - 48
       | None => false
       end)).
  assert (HP : P c = true) by (apply below_128; [vm_compute; reflexivity | exact Hc]).
  unfold P in HP. rewrite H in HP. simpl in HP.
  destruct (to_decimal c) as [d|]; [|discriminate].
  apply Z.eqb_eq in HP. congruence.
Qed.

(** No other ASCII character is a digit of any kind. *)
Lemma is_digit_ascii (c : char) :
  (c < 128)%N -> is_digit c = is_ascii_digit c.
Proof.
  intros Hc.
  pose (P := fun c : N => Bool.eqb (is_digit c) (is_ascii_digit c)).
  assert (HP : P c = true) by (apply below_128; [vm_compute; reflexivity | exact Hc]).
  apply Bool.eqb_prop. exact HP.
Qed.

Lemma is_decimal_is_digit (c : char) : is_decimal c = true -> is_digit c = true.
Proof. intros H. unfold is_digit. rewrite H. reflexivity. Qed.

(** ** The Luhn loop computes the checksum *)

Lemma odd_mod_2 (idx : nat) : Nat.eqb (idx mod 2) 1 = Nat.odd idx.
Proof.
  rewrite <- Nat.bit0_mod, Nat.bit0_odd. destruct (Nat.odd idx); reflexivity.
Qed.

Lemma luhn_loop_decimal (s : str) :
  forall idx total,
    List.Forall (fun c => is_decimal c = true) s ->
    luhn_loop s idx total
    = Returns (total + luhn_sum_from idx (digit_values s)).
Proof.
  induction s as [|c s IH]; intros idx total Hs.
  - simpl. f_equal. lia.
  - inversion Hs as [|? ? Hc Hs']; subst.
    cbn [luhn_loop digit_values List.map luhn_sum_from].
    unfold int_of_char, is_decimal in *.
    destruct (to_decimal c) as [d|]; [|discriminate].
    cbn [rbind default from_option id]. fold (digit_values s).
    rewrite IH by assumption. f_equal.
    unfold luhn_digit. rewrite odd_mod_2.
    replace (d * 2) with (2 * d) by lia.
    destruct (Nat.odd idx); [destruct (9 <? 2 * d)|]; lia.
Qed.

Lemma digit_values_rev (s : str) :
  digit_values (List.rev s) = List.rev (digit_values s).
Proof. unfold digit_values. apply List.map_rev. Qed.

Lemma isdigit_true (s : str) :
  s <> [] -> (forall c, In c s -> is_digit c = true) -> isdigit s = true.
Proof.
  intros Hne H. destruct s as [|c s]; [congruence|].
  unfold isdigit. apply List.forallb_forall. exact H.
Qed.

Lemma isdigit_false (s : str) (c : char) :
  In c s -> is_digit c = false -> isdigit s = false.
Proof.
  intros Hin Hc. destruct (isdigit s) eqn:E; [|reflexivity].
  destruct s as [|c0 s]; [discriminate|].
  unfold isdigit in E. rewrite List.forallb_forall in E.
  rewrite (E c Hin) in Hc. discriminate.
Qed.

Lemma isdigit_forall (s : str) :
  isdigit s = true -> forall c, In c s -> is_digit c = true.
Proof.
  destruct s as [|c0 s]; [discriminate|].
  unfold isdigit. intros E. apply List.forallb_forall. exact E.
Qed.

Lemma in_replace_space (s : str) (c : char) :
  In c (replace_space s) <-> In c s /\ c <> SPACE.
Proof.
  unfold replace_space. rewrite List.filter_In.
  rewrite negb_true_iff, N.eqb_neq. reflexivity.
Qed.

(** On a card number whose digit characters are all decimal, the function
    returns. *)
Lemma luhn_algorithm_returns (card_number : str) :
  (forall c, In c card_number -> is_digit c = true -> is_decimal c = true) ->
  exists valid, luhn_algorithm card_number = Returns valid.
Proof.
  intros H. unfold luhn_algorithm.
  destruct (isdigit (replace_space card_number)) eqn:E; simpl.
  - rewrite luhn_loop_decimal; [simpl; eauto|].
    apply List.Forall_forall. intros c Hc.
    apply List.in_rev in Hc.
    pose proof (isdigit_forall _ E c Hc) as Hd.
    apply in_replace_space in Hc as [Hc _]. auto.
  - eauto.
Qed.

(** ** The validator *)

(** C1, as amended. [luhn_algorithm] first strips the spaces (U+0020) of
    its input. If nothing is left, or if a character that is left is not a
    digit, it returns [False] and does not raise. If something is left and
    every character left is a decimal digit, it returns [True] exactly when
    the checksum is divisible by 10: the digits reversed, each digit at an
    odd 0-indexed position doubled (minus 9 when the double exceeds 9), all
    summed. *)
Theorem luhn_algorithm_contract (card_number : str) :
  let digits := replace_space card_number in
  (forall c, In c digits <-> In c card_number /\ c <> SPACE) /\
  (digits = [] \/ (exists c, In c digits /\ is_digit c = false) ->
   luhn_algorithm card_number = Returns false) /\
  (digits <> [] -> (forall c, In c digits -> is_decimal c = true) ->
   luhn_algorithm card_number
   = Returns (luhn_checksum (digit_values digits) mod 10 =? 0)).
Proof.
  intros digits. split; [|split].
  - intros c. apply in_replace_space.
  - intros H. unfold luhn_algorithm. fold digits.
    assert (E : isdigit digits = false).
    { destruct H as [-> | (c & Hin & Hc)]; [reflexivity|].
      eapply isdigit_false; eassumption. }
    rewrite E. reflexivity.
  - intros Hne Hdec. unfold luhn_algorithm. fold digits.
    rewrite isdigit_true; [|assumption|].
    + cbn [negb]. rewrite luhn_loop_decimal.
      * cbn [rbind]. unfold luhn_checksum. rewrite digit_values_rev.
        reflexivity.
      * apply List.Forall_forall. intros c Hc. apply Hdec.
        apply List.in_rev. exact Hc.
    + intros c Hc. apply is_decimal_is_digit. auto.
Qed.

Lemma all_decimal_dec (s : str) :
  List.forallb is_decimal s = true -> forall c, In c s -> is_decimal c = true.
Proof. intros H. apply List.forallb_forall. exact H. Qed.

(** The contract at a valid card number written with spaces, and at a card
    number with a letter in it. *)
Lemma luhn_algorithm_contract_witness :
  luhn_algorithm (py "4539 1488 0343 6467") = Returns true /\
  luhn_algorithm (py "4539x48803436467") = Returns false.
Proof.
  split.
  - destruct (luhn_algorithm_contract (py "4539 1488 0343 6467"))
      as (_ & _ & H).
    rewrite H.
    + vm_compute. reflexivity.
    + vm_compute. discriminate.
    + apply all_decimal_dec. vm_compute. reflexivity.
  - destruct (luhn_algorithm_contract (py "4539x48803436467"))
      as (_ & H & _).
    apply H. right. exists 120%N. split.
    + vm_compute. tauto.
    + vm_compute. reflexivity.
Defined.

(** C1 as it is stated fails on the empty string: no character is left, so
    none is a non-digit, and the sum, 0, is divisible by 10; the function
    answers [False] all the same. *)
Lemma luhn_algorithm_empty_checksum :
  (forall c, In c (replace_space (py "")) -> is_digit c = true) /\
  luhn_checksum (digit_values (replace_space (py ""))) mod 10 = 0 /\
  luhn_algorithm (py "") = Returns false.
Proof.
  split; [|split].
  - intros c [].
  - reflexivity.
  - reflexivity.
Qed.

(** C9, as amended. On the empty string and on every string made of spaces
    only, [luhn_algorithm] returns [False]: nothing is left once the spaces
    are stripped, and [isdigit] is false on the empty string. *)
Theorem luhn_algorithm_blank (n : nat) :
  luhn_algorithm (List.repeat SPACE n) = Returns false.
Proof.
  unfold luhn_algorithm.
  assert (E : replace_space (List.repeat SPACE n) = []).
  { induction n as [|n IH]; [reflexivity|]. simpl. exact IH. }
  rewrite E. reflexivity.
Qed.

(** C9 as it is stated fails: the empty string and a string of spaces are
    not valid card numbers. *)
Lemma luhn_algorithm_blank_not_valid :
  luhn_algorithm (py "") <> Returns true /\
  luhn_algorithm (py "   ") <> Returns true.
Proof. split; vm_compute; discriminate. Qed.

(** ** The batch rules *)

(** The frame after the Luhn rule, when it completes: the other rules read
    the columns they read in the frame they were given. *)
Lemma luhn_rule_frame (df : DataFrame) :
  luhn_rule_completes df ->
  exists df1, luhn_rule df = (Returns tt, df1) /\
    Amount df1 = Amount df /\ Timestamp df1 = Timestamp df /\
    HighAmount df1 = HighAmount df /\ SuspiciousTime df1 = SuspiciousTime df /\
    Fraudulent df1 = Fraudulent df /\
    (CardNumber df <> None -> LuhnValid df1 <> None).
Proof.
  intros H. unfold luhn_rule, when_column.
  destruct (CardNumber df) as [cards|] eqn:E.
  - destruct (H cards E) as [valid Hv].
    unfold bind, lift, setitem. rewrite Hv.
    eexists. split; [reflexivity|]. simpl. repeat split; discriminate.
  - eexists. split; [reflexivity|]. repeat split. congruence.
Qed.

Lemma high_amount_rule_spec (df : DataFrame) :
  exists df2, high_amount_rule df = (Returns tt, df2) /\
    Timestamp df2 = Timestamp df /\ LuhnValid df2 = LuhnValid df /\
    SuspiciousTime df2 = SuspiciousTime df /\ Fraudulent df2 = Fraudulent df /\
    HighAmount df2 = match Amount df with
                     | Some amounts => Some (List.map gt_1000 amounts)
                     | None => HighAmount df
                     end.
Proof.
  unfold high_amount_rule, when_column, setitem.
  destruct (Amount df) as [amounts|]; eexists; (split; [reflexivity|]);
    simpl; repeat split.
Qed.

Lemma suspicious_time_rule_spec (df : DataFrame) :
  suspicious_time_rule df =
  match Timestamp df with
  | Some ts =>
      match diff ts with
      | Returns gaps =>
          (Returns tt,
           set_SuspiciousTime (List.map lt_60 (List.map total_seconds gaps))
             (set_TimeGap (List.map total_seconds gaps) df))
      | Raises e => (Raises e, df)
      end
  | None => (Returns tt, df)
  end.
Proof.
  unfold suspicious_time_rule, when_column, bind, lift, setitem, getitem.
  destruct (Timestamp df) as [ts|]; [|reflexivity].
  destruct (diff ts); reflexivity.
Qed.

Lemma mark_fraudulent_spec (df : DataFrame) :
  mark_fraudulent df =
  match LuhnValid df, HighAmount df, SuspiciousTime df with
  | Some lv, Some ha, Some st =>
      (Returns tt, set_Fraudulent (series_and lv (series_or ha st)) df)
  | None, _, _ => (Raises (KeyError "LuhnValid"), df)
  | Some _, None, _ => (Raises (KeyError "HighAmount"), df)
  | Some _, Some _, None => (Raises (KeyError "SuspiciousTime"), df)
  end.
Proof.
  unfold mark_fraudulent, bind, getitem, setitem.
  destruct (LuhnValid df), (HighAmount df), (SuspiciousTime df); reflexivity.
Qed.

(** The whole function, when the Luhn rule and rule 3 complete: the three
    rules run, and the verdict is computed on the frame they leave. *)
Lemma rule_based_detection_run (df : DataFrame) :
  luhn_rule_completes df -> time_rule_completes df ->
  exists df3, rule_based_detection df = mark_fraudulent df3 /\
    (CardNumber df <> None -> LuhnValid df3 <> None) /\
    HighAmount df3 = match Amount df with
                     | Some amounts => Some (List.map gt_1000 amounts)
                     | None => HighAmount df
                     end /\
    ((forall ts flags, Timestamp df = Some ts ->
        suspicious_flags ts = Returns flags ->
        SuspiciousTime df3 = Some flags) /\
     (Timestamp df = None -> SuspiciousTime df3 = SuspiciousTime df)) /\
    Fraudulent df3 = Fraudulent df.
Proof.
  intros H Ht.
  destruct (luhn_rule_frame df H) as (df1 & E1 & A1 & T1 & H1 & S1 & F1 & L1).
  destruct (high_amount_rule_spec df1) as (df2 & E2 & T2 & L2 & S2 & F2 & H2).
  pose proof (suspicious_time_rule_spec df2) as E3. rewrite T2, T1 in E3.
  unfold rule_based_detection, bind. rewrite E1, E2, E3.
  destruct (Timestamp df) as [ts|] eqn:ET.
  - destruct (Ht ts ET) as [flags Hf]. unfold suspicious_flags in *.
    destruct (diff ts) as [gaps|e] eqn:Ed; [|discriminate].
    eexists. split; [reflexivity|].
    cbn [set_SuspiciousTime set_TimeGap LuhnValid HighAmount SuspiciousTime
         Fraudulent].
    rewrite L2, H2, A1, H1, F2, F1. repeat split; auto.
    + intros ts' flags' [= <-] Hf'. rewrite Ed in Hf'.
      injection Hf' as <-. reflexivity.
    + discriminate.
  - eexists. split; [reflexivity|].
    rewrite L2, H2, A1, H1, S2, S1, F2, F1. repeat split; auto.
    discriminate.
Qed.

Lemma mark_fraudulent_keeps (df : DataFrame) :
  LuhnValid (mark_fraudulent df).2 = LuhnValid df /\
  HighAmount (mark_fraudulent df).2 = HighAmount df /\
  SuspiciousTime (mark_fraudulent df).2 = SuspiciousTime df.
Proof.
  rewrite mark_fraudulent_spec.
  destruct (LuhnValid df) eqn:EL, (HighAmount df) eqn:EH,
    (SuspiciousTime df) eqn:ES; simpl; rewrite ?EL, ?EH, ?ES; auto.
Qed.


Lemma lookup_map {A B} (f : A -> B) (l : list A) (i : nat) :
  List.map f l !! i = f <$> (l !! i).
Proof.
  revert i. induction l as [|x l IH]; intros [|i]; simpl; auto.
Qed.

Lemma two_rows_luhn (gap_ns : Z) : luhn_rule_completes (two_rows gap_ns).
Proof.
  intros cards E. injection E as <-. eexists. vm_compute. reflexivity.
Qed.

(** ** The verdict *)

Lemma rule_based_detection_returns (df df' : DataFrame) :
  rule_based_detection df = (Returns tt, df') ->
  exists d lv ha st,
    LuhnValid d = Some lv /\ HighAmount d = Some ha /\
    SuspiciousTime d = Some st /\
    df' = set_Fraudulent (series_and lv (series_or ha st)) d.
Proof.
  unfold rule_based_detection, bind.
  destruct (luhn_rule df) as [[[]|e1] d1]; [|discriminate].
  destruct (high_amount_rule d1) as [[[]|e2] d2]; [|discriminate].
  destruct (suspicious_time_rule d2) as [[[]|e3] d3]; [|discriminate].
  rewrite mark_fraudulent_spec.
  destruct (LuhnValid d3) as [lv|] eqn:EL; [|discriminate].
  destruct (HighAmount d3) as [ha|] eqn:EH; [|discriminate].
  destruct (SuspiciousTime d3) as [st|] eqn:ES; [|discriminate].
  intros [= <-]. exists d3, lv, ha, st. auto.
Qed.

Lemma series_and_gate (lv other : list bool) (i : nat) :
  lv !! i = Some false -> series_and lv other !! i <> Some true.
Proof.
  unfold series_and. rewrite lookup_zip_with. intros ->. simpl.
  destruct (other !! i); simpl; congruence.
Qed.

(** C2. Whenever the batch rules return, no row whose LuhnValid is false
    has Fraudulent true, whatever its HighAmount and SuspiciousTime; and
    whenever the online handler returns, Fraudulent is false if LuhnValid
    is false. *)
Theorem fraudulent_needs_luhn_valid :
  (forall df df' : DataFrame,
     rule_based_detection df = (Returns tt, df') ->
     exists lv ha st,
       LuhnValid df' = Some lv /\ HighAmount df' = Some ha /\
       SuspiciousTime df' = Some st /\
       Fraudulent df' = Some (series_and lv (series_or ha st)) /\
       forall i, lv !! i = Some false ->
                 series_and lv (series_or ha st) !! i <> Some true) /\
  (forall (data : gmap string json) response,
     detect_fraud data = Returns response ->
     exists card amount lv ha fr,
       response = [ ("CardNumber"%string, card);
                    ("Amount"%string, JFloat amount);
                    ("LuhnValid"%string, JBool lv);
                    ("HighAmount"%string, JBool ha);
                    ("Fraudulent"%string, JBool fr) ] /\
       (lv = false -> fr = false)).
Proof.
  split.
  - intros df df' H.
    destruct (rule_based_detection_returns df df' H)
      as (d & lv & ha & st & EL & EH & ES & ->).
    exists lv, ha, st. simpl. repeat split; try assumption.
    intros i. apply series_and_gate.
  - intros data response. unfold detect_fraud.
    destruct (py_float (dict_get data "Amount")) as [amount|]; [|discriminate].
    cbn [rbind].
    destruct (call_luhn_algorithm (dict_get data "CardNumber")) as [lv|];
      [|discriminate].
    cbn [rbind]. intros [= <-].
    eexists _, _, _, _, _. split; [reflexivity|].
    intros ->. reflexivity.
Qed.

(** The gate on a batch whose first card fails the checksum with a high
    amount, and on an online request with the same card and amount. *)
Lemma fraudulent_needs_luhn_valid_witness :
  Fraudulent (rule_based_detection gate_rows).2 = Some [false; true] /\
  (exists response,
     detect_fraud {[ "CardNumber"%string := JStr (py "4539148803436468");
                     "Amount"%string := JInt 1500 ]} = Returns response /\
     In ("Fraudulent"%string, JBool false) response).
Proof.
  destruct fraudulent_needs_luhn_valid as [Hb Ho]. split.
  - destruct (Hb gate_rows (rule_based_detection gate_rows).2)
      as (lv & ha & st & EL & EH & ES & EF & _).
    + vm_compute. reflexivity.
    + rewrite EF. vm_compute in EL, EH, ES.
      injection EL as <-. injection EH as <-. injection ES as <-.
      vm_compute. reflexivity.
  - eexists. split; [vm_compute; reflexivity|].
    simpl. auto 10.
Defined.

(** C6: what the code does on a batch with CardNumber and Amount columns and
    no Timestamp (and no SuspiciousTime) column. The Luhn and amount rules
    write their columns, rule 3 is skipped, and the verdict then reads the
    SuspiciousTime column that nobody wrote: the function raises
    [KeyError] and no Fraudulent column is produced. *)
Theorem missing_timestamp_key_error
  (df : DataFrame) (cards : list str) (amounts : list float) :
  CardNumber df = Some cards -> Amount df = Some amounts ->
  Timestamp df = None -> SuspiciousTime df = None ->
  luhn_rule_completes df ->
  exists df',
    rule_based_detection df = (Raises (KeyError "SuspiciousTime"), df') /\
    LuhnValid df' <> None /\
    HighAmount df' = Some (List.map gt_1000 amounts) /\
    SuspiciousTime df' = None /\
    Fraudulent df' = Fraudulent df.
Proof.
  intros HC HA HT HS Hl.
  destruct (rule_based_detection_run df Hl) as (d & Er & EL & EH & ES & EF).
  { intros ts Hts. congruence. }
  rewrite HA in EH. apply proj2 in ES. specialize (ES HT). rewrite HS in ES.
  assert (EL' : LuhnValid d <> None) by (apply EL; congruence).
  rewrite Er, mark_fraudulent_spec.
  destruct (LuhnValid d) as [lv|] eqn:E; [|congruence].
  rewrite EH, ES. exists d. repeat split; auto. congruence.
Qed.

(** The one-row batch without timestamps: a [KeyError], and no verdict. *)
Lemma missing_timestamp_key_error_witness :
  (rule_based_detection no_timestamp).1 = Raises (KeyError "SuspiciousTime")
  /\ Fraudulent (rule_based_detection no_timestamp).2 = None.
Proof.
  destruct (missing_timestamp_key_error no_timestamp _ _
              eq_refl eq_refl eq_refl eq_refl) as (df' & E & _ & _ & _ & F).
  - intros cards [= <-]. eexists. vm_compute. reflexivity.
  - rewrite E. split; [reflexivity|exact F].
Defined.

(** ** Floats above 1000 *)

Lemma digits2_pos_bounds (m : positive) :
  2 ^ (Zpos (digits2_pos m) - 1) <= Zpos m < 2 ^ Zpos (digits2_pos m).
Proof.
  induction m as [m IH|m IH|]; cbn [digits2_pos].
  - rewrite Pos2Z.inj_succ.
    replace (Z.succ (Z.pos (digits2_pos m)) - 1)
      with (Z.succ (Z.pos (digits2_pos m) - 1)) by lia.
    rewrite !Z.pow_succ_r by lia. lia.
  - rewrite Pos2Z.inj_succ.
    replace (Z.succ (Z.pos (digits2_pos m)) - 1)
      with (Z.succ (Z.pos (digits2_pos m) - 1)) by lia.
    rewrite !Z.pow_succ_r by lia. lia.
  - simpl. lia.
Qed.



Lemma gt_1000_finite (m : positive) (e : Z) :
  gt_1000 (S754_finite false m e) =
  match -43 ?= e with
  | Lt => true
  | Gt => false
  | Eq => 8796093022208000 <? Zpos m
  end.
Proof.
  unfold gt_1000, SFltb, float_1000, SFcompare.
  destruct (-43 ?= e); reflexivity.
Qed.


(** ** Integers as doubles *)

Lemma shr_1_div2 (mrs : shr_record) :
  0 <= shr_m mrs -> shr_m (shr_1 mrs) = shr_m mrs / 2.
Proof.
  destruct mrs as [m r s]. cbn [shr_m]. intros Hm.
  destruct m as [|p|p]; [reflexivity| |lia].
  destruct p as [p|p|]; cbn [shr_1 shr_m].
  - rewrite Pos2Z.inj_xI. apply Z.div_unique with 1; lia.
  - rewrite Pos2Z.inj_xO. apply Z.div_unique with 0; lia.
  - reflexivity.
Qed.

Lemma iter_shr_1 (p : positive) :
  forall mrs, 0 <= shr_m mrs ->
    shr_m (SpecFloat.iter_pos shr_1 p mrs) = shr_m mrs / 2 ^ Zpos p.
Proof.
  induction p as [p IH|p IH|]; intros mrs Hm; cbn [SpecFloat.iter_pos].
  - assert (H1 : 0 <= shr_m (shr_1 mrs)).
    { rewrite shr_1_div2 by exact Hm. apply Z.div_pos; lia. }
    assert (H2 : 0 <= shr_m (SpecFloat.iter_pos shr_1 p (shr_1 mrs))).
    { rewrite IH by exact H1. apply Z.div_pos; [exact H1|].
      apply Z.pow_pos_nonneg; lia. }
    rewrite IH by exact H2. rewrite IH by exact H1.
    rewrite shr_1_div2 by exact Hm.
    rewrite !Z.div_div by (try apply Z.pow_pos_nonneg; lia).
    f_equal.
    replace (Z.pos p~1) with (1 + Z.pos p + Z.pos p) by lia.
    rewrite !Z.pow_add_r by lia. lia.
  - assert (H1 : 0 <= shr_m (SpecFloat.iter_pos shr_1 p mrs)).
    { rewrite IH by exact Hm. apply Z.div_pos; [exact Hm|].
      apply Z.pow_pos_nonneg; lia. }
    rewrite IH by exact H1. rewrite IH by exact Hm.
    rewrite !Z.div_div by (try apply Z.pow_pos_nonneg; lia).
    f_equal.
    replace (Z.pos p~0) with (Z.pos p + Z.pos p) by lia.
    rewrite !Z.pow_add_r by lia. lia.
  - rewrite shr_1_div2 by exact Hm. reflexivity.
Qed.

Lemma iter_xO (k m : positive) :
  Zpos (Pos.iter xO m k) = Zpos m * 2 ^ Zpos k /\
  digits2_pos (Pos.iter xO m k) = (digits2_pos m + k)%positive.
Proof.
  induction k as [|k IH] using Pos.peano_ind.
  - simpl. split; [lia|]. rewrite Pos.add_1_r. reflexivity.
  - rewrite Pos.iter_succ. destruct IH as [IH1 IH2].
    cbn [digits2_pos]. rewrite Pos2Z.inj_xO, IH1, IH2, Pos2Z.inj_succ.
    rewrite Z.pow_succ_r by lia. split; [lia|].
    rewrite Pos.add_succ_r. reflexivity.
Qed.

Lemma fexp_normal (d e : Z) :
  53 <= d -> -1074 <= e -> fexp prec emax (d + e) - e = d - 53.
Proof. unfold fexp, SpecFloat.emin, prec, emax. lia. Qed.

Lemma shr_m_of_loc (m : Z) (l : location) :
  shr_m (shr_record_of_loc m l) = m.
Proof. destruct l as [|[]]; reflexivity. Qed.

(** Shifting a mantissa of 53 digits or more down to 53 digits. *)
Lemma shr_fexp_normal (p : positive) (e : Z) (l : location) :
  53 <= Zpos (digits2_pos p) -> -1074 <= e ->
  snd (shr_fexp prec emax (Zpos p) e l) = e + Zpos (digits2_pos p) - 53 /\
  2 ^ 52 <= shr_m (fst (shr_fexp prec emax (Zpos p) e l)) < 2 ^ 53.
Proof.
  intros Hd He. unfold shr_fexp. cbn [Zdigits2].
  rewrite fexp_normal by assumption.
  pose proof (digits2_pos_bounds p) as Hb.
  destruct (Zpos (digits2_pos p) - 53) as [|k|k] eqn:Ek; [| |lia].
  - cbn [shr fst snd]. rewrite shr_m_of_loc. split; [lia|].
    replace (Zpos (digits2_pos p)) with 53 in Hb by lia. exact Hb.
  - cbn [shr fst snd]. split; [lia|].
    rewrite iter_shr_1 by (rewrite shr_m_of_loc; lia).
    rewrite shr_m_of_loc.
    assert (Hk : 0 < 2 ^ Zpos k) by (apply Z.pow_pos_nonneg; lia).
    replace (Zpos (digits2_pos p)) with (Zpos k + 53) in Hb by lia.
    replace (Zpos k + 53 - 1) with (Zpos k + 52) in Hb by lia.
    rewrite !Z.pow_add_r in Hb by lia. split.
    + apply Z.div_le_lower_bound; lia.
    + apply Z.div_lt_upper_bound; lia.
Qed.

Lemma round_nearest_even_bounds (m : Z) (l : location) :
  m <= round_nearest_even m l <= m + 1.
Proof.
  unfold round_nearest_even.
  destruct l as [|[]]; try destruct (Z.even m); lia.
Qed.

Lemma digits_of_rounded (p : positive) :
  2 ^ 52 <= Zpos p <= 2 ^ 53 ->
  53 <= Zpos (digits2_pos p) <= 54.
Proof.
  intros H. pose proof (digits2_pos_bounds p) as Hb. split.
  - apply Z.nlt_ge. intros Hlt.
    assert (2 ^ Zpos (digits2_pos p) <= 2 ^ 52)
      by (apply Z.pow_le_mono_r; lia). lia.
  - apply Z.nlt_ge. intros Hlt.
    assert (2 ^ 54 <= 2 ^ (Zpos (digits2_pos p) - 1))
      by (apply Z.pow_le_mono_r; lia).
    change (2 ^ 54) with (2 * 2 ^ 53) in H0. lia.
Qed.

(** Rounding a mantissa of 53 digits or more, below the overflow
    threshold: the result is a finite double. *)
Lemma binary_round_aux_normal (s : bool) (p : positive) (e : Z) :
  53 <= Zpos (digits2_pos p) -> -1074 <= e ->
  e + Zpos (digits2_pos p) - 53 <= 970 ->
  exists m' e',
    binary_round_aux prec emax s (Zpos p) e loc_Exact = S754_finite s m' e' /\
    e + Zpos (digits2_pos p) - 53 <= e'.
Proof.
  intros Hd He Hmax. unfold binary_round_aux.
  destruct (shr_fexp_normal p e loc_Exact Hd He) as [E1 B1].
  destruct (shr_fexp prec emax (Zpos p) e loc_Exact) as [mrs1 e1].
  cbn [fst snd] in E1, B1.
  pose proof (round_nearest_even_bounds (shr_m mrs1) (loc_of_shr_record mrs1))
    as Hr.
  destruct (round_nearest_even (shr_m mrs1) (loc_of_shr_record mrs1))
    as [|pr|pr]; [lia| |lia].
  assert (Hpr : 53 <= Zpos (digits2_pos pr) <= 54)
    by (apply digits_of_rounded; lia).
  destruct (shr_fexp_normal pr e1 loc_Exact) as [E2 B2]; [lia|lia|].
  destruct (shr_fexp prec emax (Zpos pr) e1 loc_Exact) as [mrs2 e2].
  cbn [fst snd] in E2, B2.
  destruct (shr_m mrs2) as [|m2|m2]; [lia| |lia].
  assert (Hle : (e2 <=? emax - prec) = true)
    by (apply Z.leb_le; unfold emax, prec; lia).
  rewrite Hle. exists m2, e2. split; [reflexivity|lia].
Qed.

(** A mantissa of exactly 53 digits is kept as it is. *)
Lemma binary_round_aux_exact (s : bool) (p : positive) (e : Z) :
  Zpos (digits2_pos p) = 53 -> -1074 <= e <= 971 ->
  binary_round_aux prec emax s (Zpos p) e loc_Exact = S754_finite s p e.
Proof.
  intros Hd He.
  assert (E : shr_fexp prec emax (Zpos p) e loc_Exact
              = (Build_shr_record (Zpos p) false false, e)).
  { unfold shr_fexp. cbn [Zdigits2].
    rewrite fexp_normal by lia. rewrite Hd. reflexivity. }
  unfold binary_round_aux. rewrite E. cbn [shr_m loc_of_shr_record
    round_nearest_even]. rewrite E. cbn [shr_m].
  assert (Hle : (e <=? emax - prec) = true)
    by (apply Z.leb_le; unfold emax, prec; lia).
  rewrite Hle. reflexivity.
Qed.

(** The double of a positive integer below [2 ^ 1023]: exact, with a
    mantissa scaled to 53 digits, when the integer has 53 digits or fewer;
    a double with a positive exponent otherwise. *)
Lemma binary_round_int (s : bool) (p : positive) :
  Zpos p < 2 ^ 1023 ->
  exists m' e',
    binary_round prec emax s p 0 = S754_finite s m' e' /\
    ((e' <= 0 /\ Zpos m' = Zpos p * 2 ^ (- e') /\ 2 ^ 52 <= Zpos m' < 2 ^ 53)
     \/ (0 < e' /\ 2 ^ 53 <= Zpos p)).
Proof.
  intros Hp. pose proof (digits2_pos_bounds p) as Hb.
  assert (Hd : Zpos (digits2_pos p) <= 1023).
  { apply Z.nlt_ge. intros Hlt.
    assert (2 ^ 1023 <= 2 ^ (Zpos (digits2_pos p) - 1))
      by (apply Z.pow_le_mono_r; lia). lia. }
  unfold binary_round, shl_align.
  assert (Hf : fexp prec emax (Zpos (digits2_pos p) + 0)
               = Zpos (digits2_pos p) - 53)
    by (unfold fexp, SpecFloat.emin, prec, emax; lia).
  rewrite Hf.
  destruct (Zpos (digits2_pos p) - 53 - 0) as [|k|k] eqn:Ek.
  - exists p, 0. split.
    + apply binary_round_aux_exact; lia.
    + left. replace (Zpos (digits2_pos p)) with 53 in Hb by lia.
      simpl (2 ^ (- 0)). split; [lia|]. split; [lia|exact Hb].
  - destruct (binary_round_aux_normal s p 0) as (m' & e' & E & He');
      [lia|lia|lia|].
    exists m', e'. split; [exact E|]. right. split; [lia|].
    apply Z.le_trans with (2 ^ (Zpos (digits2_pos p) - 1)); [|lia].
    apply Z.pow_le_mono_r; lia.
  - destruct (iter_xO k p) as [Hz Hdg].
    exists (Pos.iter xO p k), (Zpos (digits2_pos p) - 53). split.
    + apply binary_round_aux_exact; [|lia].
      rewrite Hdg, Pos2Z.inj_add. lia.
    + left. split; [lia|].
      replace (- (Zpos (digits2_pos p) - 53)) with (Zpos k) by lia.
      split; [exact Hz|].
      pose proof (digits2_pos_bounds (Pos.iter xO p k)) as Hb'.
      rewrite Hdg, Pos2Z.inj_add in Hb'.
      replace (Zpos (digits2_pos p) + Zpos k) with 53 in Hb' by lia.
      exact Hb'.
Qed.

(** [float(n)] on an integer below [2 ^ 1023] in magnitude returns, and the
    double it returns is above 1000 exactly when [n] is. *)
Lemma float_of_int_gt_1000 (n : Z) :
  Z.abs n < 2 ^ 1023 ->
  exists x, float_of_int n = Returns x /\ gt_1000 x = (1000 <? n).
Proof.
  intros Hn. unfold float_of_int, binary_normalize.
  destruct n as [|p|p].
  - eexists. split; reflexivity.
  - destruct (binary_round_int false p Hn) as (m' & e' & -> & H).
    eexists. split; [reflexivity|]. rewrite gt_1000_finite.
    destruct H as [(He & Hm & Hb)|(He & Hp)].
    + assert (Hpow : 0 < 2 ^ (- e')) by (apply Z.pow_pos_nonneg; lia).
      destruct (Z.compare_spec (-43) e') as [E|E|E].
      * subst e'. change (2 ^ (- -43)) with 8796093022208 in Hm.
        destruct (Z.ltb_spec 8796093022208000 (Zpos m')),
          (Z.ltb_spec 1000 (Zpos p)); lia.
      * assert (2 ^ (- e') <= 2 ^ 42) by (apply Z.pow_le_mono_r; lia).
        change (2 ^ 42) with 4398046511104 in H.
        change (2 ^ 52) with 4503599627370496 in Hb.
        symmetry. apply Z.ltb_lt. nia.
      * assert (2 ^ 44 <= 2 ^ (- e')) by (apply Z.pow_le_mono_r; lia).
        change (2 ^ 44) with 17592186044416 in H.
        change (2 ^ 53) with 9007199254740992 in Hb.
        symmetry. apply Z.ltb_ge. nia.
    + change (2 ^ 53) with 9007199254740992 in Hp.
      destruct (Z.compare_spec (-43) e') as [E|E|E]; [lia| |lia].
      symmetry. apply Z.ltb_lt. lia.
  - destruct (binary_round_int true p Hn) as (m' & e' & -> & _).
    eexists. split; reflexivity.
Qed.

(** ** The amount rule *)



(** ** Time gaps *)

(** *** Dividing a 64-bit integer by one billion, in doubles *)

(** Shifting a mantissa of 53 digits or more down to 53 digits drops its low
    digits. *)
Lemma shr_fexp_shift (p : positive) (e : Z) (l : location) :
  53 <= Zpos (digits2_pos p) -> -1074 <= e ->
  shr_m (fst (shr_fexp prec emax (Zpos p) e l))
  = Zpos p / 2 ^ (Zpos (digits2_pos p) - 53).
Proof.
  intros Hd He. unfold shr_fexp. cbn [Zdigits2].
  rewrite fexp_normal by assumption.
  destruct (Zpos (digits2_pos p) - 53) as [|k|k] eqn:Ek; [| |lia].
  - cbn [shr fst]. rewrite shr_m_of_loc, Z.div_1_r. reflexivity.
  - cbn [shr fst]. rewrite iter_shr_1 by (rewrite shr_m_of_loc; lia).
    rewrite shr_m_of_loc. reflexivity.
Qed.

(** Rounding a mantissa of 53 digits or more: the result is a finite double
    with a mantissa of 53 digits, and it stands for the shifted mantissa or
    its successor, at the exponent the shift gives. *)
Lemma binary_round_aux_bracket (s : bool) (p : positive) (e : Z) (l : location) :
  53 <= Zpos (digits2_pos p) -> -1074 <= e ->
  e + Zpos (digits2_pos p) - 53 <= 970 ->
  exists m' e' mr,
    binary_round_aux prec emax s (Zpos p) e l = S754_finite s m' e' /\
    Zpos p / 2 ^ (Zpos (digits2_pos p) - 53) <= mr
      <= Zpos p / 2 ^ (Zpos (digits2_pos p) - 53) + 1 /\
    e + Zpos (digits2_pos p) - 53 <= e' /\
    Zpos m' * 2 ^ (e' - (e + Zpos (digits2_pos p) - 53)) = mr /\
    2 ^ 52 <= Zpos m' < 2 ^ 53.
Proof.
  intros Hd He Hmax. unfold binary_round_aux.
  destruct (shr_fexp_normal p e l Hd He) as [E1 B1].
  pose proof (shr_fexp_shift p e l Hd He) as S1.
  destruct (shr_fexp prec emax (Zpos p) e l) as [mrs1 e1].
  cbn [fst snd] in E1, B1, S1.
  pose proof (round_nearest_even_bounds (shr_m mrs1) (loc_of_shr_record mrs1))
    as Hr.
  destruct (round_nearest_even (shr_m mrs1) (loc_of_shr_record mrs1))
    as [|pr|pr] eqn:Er; [lia| |lia].
  assert (Hpr : 53 <= Zpos (digits2_pos pr) <= 54)
    by (apply digits_of_rounded; lia).
  destruct (shr_fexp_normal pr e1 loc_Exact) as [E2 B2]; [lia|lia|].
  pose proof (shr_fexp_shift pr e1 loc_Exact ltac:(lia) ltac:(lia)) as S2.
  destruct (shr_fexp prec emax (Zpos pr) e1 loc_Exact) as [mrs2 e2].
  cbn [fst snd] in E2, B2, S2.
  destruct (shr_m mrs2) as [|m2|m2] eqn:Em2; [lia| |lia].
  assert (Hle : (e2 <=? emax - prec) = true)
    by (apply Z.leb_le; unfold emax, prec; lia).
  rewrite Hle. exists m2, e2, (Zpos pr).
  split; [reflexivity|]. split; [rewrite <- S1; lia|]. split; [lia|].
  split; [|exact B2].
  assert (Hcase : Zpos (digits2_pos pr) = 53 \/ Zpos (digits2_pos pr) = 54)
    by lia.
  destruct Hcase as [H53|H54].
  - rewrite H53 in S2, E2. change (2 ^ (53 - 53)) with 1 in S2.
    rewrite Z.div_1_r in S2.
    replace (e2 - (e + Zpos (digits2_pos p) - 53)) with 0 by lia.
    rewrite S2. simpl (2 ^ 0). lia.
  - rewrite H54 in S2, E2. change (2 ^ (54 - 53)) with 2 in S2.
    replace (e2 - (e + Zpos (digits2_pos p) - 53)) with 1 by lia.
    simpl (2 ^ 1).
    assert (Hp53 : Zpos pr = 2 ^ 53).
    { pose proof (digits2_pos_bounds pr) as Hb. rewrite H54 in Hb.
      change (2 ^ (54 - 1)) with (2 ^ 53) in Hb. lia. }
    rewrite Hp53 in S2. change (2 ^ 53 / 2) with (2 ^ 52) in S2.
    rewrite S2, Hp53. reflexivity.
Qed.

Lemma digits_53 (m : positive) :
  2 ^ 52 <= Zpos m < 2 ^ 53 -> Zpos (digits2_pos m) = 53.
Proof.
  intros H. pose proof (digits2_pos_bounds m) as Hb.
  destruct (Z.lt_trichotomy (Zpos (digits2_pos m)) 53) as [Hlt|[Heq|Hgt]];
    [|exact Heq|].
  - assert (2 ^ Zpos (digits2_pos m) <= 2 ^ 52)
      by (apply Z.pow_le_mono_r; lia). lia.
  - assert (2 ^ 53 <= 2 ^ (Zpos (digits2_pos m) - 1))
      by (apply Z.pow_le_mono_r; lia). lia.
Qed.

(** The double of a positive integer below [2 ^ 63]: a mantissa of 53
    digits, which is the integer itself scaled when the integer has 53
    digits or fewer. *)
Lemma binary_round_int64 (s : bool) (p : positive) :
  Zpos p < 2 ^ 63 ->
  exists m1 e1,
    binary_round prec emax s p 0 = S754_finite s m1 e1 /\
    2 ^ 52 <= Zpos m1 < 2 ^ 53 /\ -52 <= e1 <= 11 /\
    ((e1 <= 0 /\ Zpos m1 = Zpos p * 2 ^ (- e1)) \/
     (0 < e1 /\ 2 ^ 53 <= Zpos p)).
Proof.
  intros Hp. pose proof (digits2_pos_bounds p) as Hb.
  assert (Hd : Zpos (digits2_pos p) <= 63).
  { apply Z.nlt_ge. intros Hlt.
    assert (2 ^ 63 <= 2 ^ (Zpos (digits2_pos p) - 1))
      by (apply Z.pow_le_mono_r; lia). lia. }
  unfold binary_round, shl_align.
  assert (Hf : fexp prec emax (Zpos (digits2_pos p) + 0)
               = Zpos (digits2_pos p) - 53)
    by (unfold fexp, SpecFloat.emin, prec, emax; lia).
  rewrite Hf.
  destruct (Zpos (digits2_pos p) - 53 - 0) as [|k|k] eqn:Ek.
  - exists p, 0. split; [apply binary_round_aux_exact; lia|].
    replace (Zpos (digits2_pos p)) with 53 in Hb by lia.
    split; [exact Hb|]. split; [lia|]. left. simpl (2 ^ (- 0)). lia.
  - destruct (binary_round_aux_bracket s p 0 loc_Exact)
      as (m' & e' & mr & E & Hmr & He' & Hm' & Hc); [lia|lia|lia|].
    exists m', e'. split; [exact E|]. split; [exact Hc|].
    assert (Ht : Zpos p / 2 ^ (Zpos (digits2_pos p) - 53) < 2 ^ 53).
    { apply Z.div_lt_upper_bound; [apply Z.pow_pos_nonneg; lia|].
      rewrite <- Z.pow_add_r by lia.
      replace (Zpos (digits2_pos p) - 53 + 53) with (Zpos (digits2_pos p))
        by lia. lia. }
    assert (He2 : e' - (0 + Zpos (digits2_pos p) - 53) <= 1).
    { apply Z.nlt_ge. intros Hlt.
      assert (2 ^ 2 <= 2 ^ (e' - (0 + Zpos (digits2_pos p) - 53)))
        by (apply Z.pow_le_mono_r; lia).
      change (2 ^ 2) with 4 in H.
      change (2 ^ 52) with 4503599627370496 in Hc.
      change (2 ^ 53) with 9007199254740992 in Ht. nia. }
    split; [lia|]. right. split; [lia|].
    apply Z.le_trans with (2 ^ (Zpos (digits2_pos p) - 1)); [|lia].
    apply Z.pow_le_mono_r; lia.
  - destruct (iter_xO k p) as [Hz Hdg].
    exists (Pos.iter xO p k), (Zpos (digits2_pos p) - 53).
    pose proof (digits2_pos_bounds (Pos.iter xO p k)) as Hb'.
    rewrite Hdg, Pos2Z.inj_add in Hb'.
    replace (Zpos (digits2_pos p) + Zpos k) with 53 in Hb' by lia.
    split; [apply binary_round_aux_exact; [rewrite Hdg, Pos2Z.inj_add|]; lia|].
    split; [exact Hb'|]. split; [lia|]. left. split; [lia|].
    replace (- (Zpos (digits2_pos p) - 53)) with (Zpos k) by lia. exact Hz.
Qed.

(** The quotient and the exponent that dividing a double by one billion
    starts from. *)
Lemma SFdiv_core_1e9 (m1 : positive) (e1 : Z) :
  2 ^ 52 <= Zpos m1 < 2 ^ 53 -> -52 <= e1 ->
  SFdiv_core_binary prec emax (Zpos m1) e1 8388608000000000 (-23)
  = (Zpos m1 * 2 ^ 53 / 8388608000000000, e1 - 30,
     new_location 8388608000000000 ((Zpos m1 * 2 ^ 53) mod 8388608000000000)).
Proof.
  intros Hm He. unfold SFdiv_core_binary. cbn [Zdigits2].
  rewrite (digits_53 m1 Hm).
  change (Zpos (digits2_pos 8388608000000000)) with 53.
  assert (He' : Z.min (fexp prec emax (53 + e1 - (53 + -23))) (e1 - -23)
                = e1 - 30)
    by (unfold fexp, SpecFloat.emin, prec, emax; lia).
  rewrite He'. replace (e1 - -23 - (e1 - 30)) with 53 by lia.
  cbv zeta iota. rewrite Z.shiftl_mul_pow2 by lia.
  unfold Z.div, Z.modulo.
  destruct (Z.div_eucl (Zpos m1 * 2 ^ 53) 8388608000000000) as [q r].
  reflexivity.
Qed.

Lemma lt_60_finite (m : positive) (e : Z) :
  lt_60 (S754_finite false m e) =
  match e ?= -47 with
  | Lt => true
  | Gt => false
  | Eq => (m <? 8444249301319680)%positive
  end.
Proof.
  unfold lt_60, SFltb, float_60, SFcompare, Pos.ltb, Pos.compare.
  destruct (e ?= -47); reflexivity.
Qed.

(** A double with a mantissa of 53 digits, given as [mr * 2 ^ E] with [E]
    not positive, is below 60 exactly when [mr] is below [60 * 2 ^ (- E)]. *)
Lemma lt_60_scaled (m' : positive) (e' E mr : Z) :
  E <= e' -> E <= 0 -> Zpos m' * 2 ^ (e' - E) = mr ->
  2 ^ 52 <= Zpos m' < 2 ^ 53 ->
  (lt_60 (S754_finite false m' e') = true <-> mr < 60 * 2 ^ (- E)).
Proof.
  intros He HE Hmr Hm. rewrite lt_60_finite. subst mr.
  assert (HA : 0 < 2 ^ (e' - E)) by (apply Z.pow_pos_nonneg; lia).
  change (2 ^ 52) with 4503599627370496 in Hm.
  change (2 ^ 53) with 9007199254740992 in Hm.
  destruct (Z.compare_spec e' (-47)) as [Heq|Hlt|Hgt].
  - subst e'. rewrite Pos2Z.inj_ltb, Z.ltb_lt.
    replace (- E) with (47 + (-47 - E)) by lia.
    rewrite Z.pow_add_r by lia. change (2 ^ 47) with 140737488355328.
    rewrite Z.mul_assoc. change (60 * 140737488355328) with 8444249301319680.
    apply Z.mul_lt_mono_pos_r. exact HA.
  - split; [intros _|reflexivity].
    replace (- E) with (- e' + (e' - E)) by lia.
    rewrite Z.pow_add_r by lia.
    assert (2 ^ 48 <= 2 ^ (- e')) by (apply Z.pow_le_mono_r; lia).
    change (2 ^ 48) with 281474976710656 in H.
    rewrite Z.mul_assoc. apply Z.mul_lt_mono_pos_r; [exact HA|lia].
  - split; [discriminate|]. intros H. exfalso.
    destruct (Z.le_gt_cases e' 0) as [Hle|Hpos].
    + replace (- E) with (- e' + (e' - E)) in H by lia.
      rewrite Z.pow_add_r in H by lia.
      assert (2 ^ (- e') <= 2 ^ 46) by (apply Z.pow_le_mono_r; lia).
      change (2 ^ 46) with 70368744177664 in H0.
      rewrite Z.mul_assoc in H.
      apply Z.mul_lt_mono_pos_r in H; [lia|exact HA].
    + replace (e' - E) with (e' + - E) in H by lia.
      rewrite Z.pow_add_r in H by lia.
      assert (HW : 0 < 2 ^ (- E)) by (apply Z.pow_pos_nonneg; lia).
      assert (HQ : 0 < 2 ^ e') by (apply Z.pow_pos_nonneg; lia).
      rewrite Z.mul_assoc in H.
      apply Z.mul_lt_mono_pos_r in H; [|exact HW].
      assert (Zpos m' * 1 <= Zpos m' * 2 ^ e')
        by (apply Z.mul_le_mono_nonneg_l; lia).
      lia.
Qed.


(** Dividing the double of a non-zero 64-bit integer by one billion gives a
    finite double of the same sign; for a positive integer [p] it is below
    60 exactly when [p] is below sixty billion. *)
Lemma total_seconds_finite (s : bool) (p : positive) :
  Zpos p < 2 ^ 63 ->
  exists m' e',
    SFdiv prec emax (binary_round prec emax s p 0) float_1e9
    = S754_finite s m' e' /\
    (s = false ->
     (lt_60 (S754_finite false m' e') = true <-> Zpos p < 60 * 1000000000)).
Proof.
  intros Hp.
  destruct (binary_round_int64 s p Hp) as (m1 & e1 & -> & Hm1 & He1 & Hcase).
  unfold float_1e9. cbn [SFdiv]. rewrite SFdiv_core_1e9 by (try exact Hm1; lia).
  set (q := Zpos m1 * 2 ^ 53 / 8388608000000000).
  assert (Hq : 2 ^ 52 <= q < 2 ^ 54).
  { unfold q. change (2 ^ 52) with 4503599627370496 in *.
    change (2 ^ 53) with 9007199254740992 in *.
    change (2 ^ 54) with 18014398509481984. split.
    - apply Z.div_le_lower_bound; lia.
    - apply Z.div_lt_upper_bound; lia. }
  destruct q as [|pq|pq] eqn:Eq; [lia| |lia].
  pose proof (digits2_pos_bounds pq) as Hbq.
  assert (Hdq : 53 <= Zpos (digits2_pos pq) <= 54).
  { split.
    - apply Z.nlt_ge. intros Hlt.
      assert (2 ^ Zpos (digits2_pos pq) <= 2 ^ 52)
        by (apply Z.pow_le_mono_r; lia). lia.
    - apply Z.nlt_ge. intros Hlt.
      assert (2 ^ 54 <= 2 ^ (Zpos (digits2_pos pq) - 1))
        by (apply Z.pow_le_mono_r; lia). lia. }
  destruct (binary_round_aux_bracket (xorb s false) pq (e1 - 30)
              (new_location 8388608000000000
                 ((Zpos m1 * 2 ^ 53) mod 8388608000000000)))
    as (m' & e' & mr & E & Hmr & He' & Hm' & Hc); [lia|lia|lia|].
  rewrite E. rewrite xorb_false_r. exists m', e'. split; [reflexivity|].
  intros _.
  set (k := Zpos (digits2_pos pq) - 53) in *.
  assert (Hk : 0 <= k <= 1) by (unfold k; lia).
  assert (Hk2 : 0 < 2 ^ k) by (apply Z.pow_pos_nonneg; lia).
  replace (e1 - 30 + Zpos (digits2_pos pq) - 53) with (e1 - 30 + k) in *
    by (unfold k; lia).
  rewrite (lt_60_scaled m' e' (e1 - 30 + k) mr) by (try assumption; lia).
  destruct Hcase as [[Hle Hexact]|[Hpos Hbig]].
  - (* the integer has 53 digits or fewer: its double is exact *)
    set (j := - e1) in *.
    assert (Hj : 0 <= j <= 52) by (unfold j; lia).
    set (W := 2 ^ (- (e1 - 30 + k))).
    assert (HW : 0 < W) by (apply Z.pow_pos_nonneg; lia).
    assert (HWk : 2 ^ (j + 30) = W * 2 ^ k).
    { unfold W. rewrite <- Z.pow_add_r by lia. f_equal. unfold j. lia. }
    assert (Ht : Zpos pq / 2 ^ k = Zpos p * W / 1000000000).
    { rewrite <- Eq. unfold q. rewrite Hexact.
      replace (Zpos p * 2 ^ j * 2 ^ 53)
        with (Zpos p * 2 ^ (j + 30) * 8388608) .
      2:{ rewrite Z.pow_add_r by lia.
          change (2 ^ 53) with (2 ^ 30 * 8388608). ring. }
      change 8388608000000000 with (1000000000 * 8388608).
      rewrite Z.div_mul_cancel_r by lia.
      rewrite Z.div_div by lia.
      rewrite HWk. rewrite Z.mul_assoc.
      rewrite Z.div_mul_cancel_r by lia. reflexivity. }
    rewrite Ht in Hmr.
    pose proof (Z.mul_div_le (Zpos p * W) 1000000000 ltac:(lia)) as Hfloor.
    split.
    + intros Hlt. apply Z.nle_gt. intros Hge.
      assert (60 * W <= Zpos p * W / 1000000000).
      { apply Z.div_le_lower_bound; [lia|].
        replace (1000000000 * (60 * W)) with (60 * 1000000000 * W) by ring.
        apply Z.mul_le_mono_nonneg_r; lia. }
      lia.
    + intros Hlt.
      assert (Hj17 : 17 <= j).
      { apply Z.nlt_ge. intros Hsmall.
        assert (2 ^ j <= 2 ^ 16) by (apply Z.pow_le_mono_r; lia).
        assert (0 < 2 ^ j) by (apply Z.pow_pos_nonneg; lia).
        change (2 ^ 16) with 65536 in H.
        change (2 ^ 52) with 4503599627370496 in Hm1.
        assert (Zpos p * 2 ^ j <= 59999999999 * 65536).
        { apply Z.mul_le_mono_nonneg; lia. }
        lia. }
      assert (HW46 : 2 ^ 46 <= W) by (apply Z.pow_le_mono_r; unfold j in *; lia).
      change (2 ^ 46) with 70368744177664 in HW46.
      assert (Zpos p * W <= 59999999999 * W)
        by (apply Z.mul_le_mono_nonneg_r; lia).
      lia.
  - (* a larger integer: the quotient is far above 60 *)
    split; [|change (2 ^ 53) with 9007199254740992 in Hbig; lia].
    intros Hlt. exfalso.
    assert (Ht52 : 2 ^ 52 <= Zpos pq / 2 ^ k).
    { apply Z.div_le_lower_bound; [exact Hk2|].
      rewrite Z.mul_comm, <- Z.pow_add_r by lia.
      replace (52 + k) with (Zpos (digits2_pos pq) - 1) by (unfold k; lia).
      lia. }
    assert (2 ^ (- (e1 - 30 + k)) <= 2 ^ 29)
      by (apply Z.pow_le_mono_r; lia).
    change (2 ^ 29) with 536870912 in H.
    change (2 ^ 52) with 4503599627370496 in Ht52. lia.
Qed.


(** The seconds of a gap that is not zero: a finite double with the sign of
    the gap. *)
Lemma total_seconds_sign (ns : Z) :
  - 2 ^ 63 < ns < 2 ^ 63 -> ns <> 0 ->
  exists m e, total_seconds (Some ns) = S754_finite (ns <? 0) m e.
Proof.
  intros Hns Hnz. unfold total_seconds, binary_normalize.
  destruct ns as [|p|p]; [congruence| |].
  - destruct (total_seconds_finite false p) as (m' & e' & -> & _); [lia|].
    exists m', e'. reflexivity.
  - destruct (total_seconds_finite true p) as (m' & e' & -> & _); [lia|].
    exists m', e'. reflexivity.
Qed.

(** [gap < 60] on the seconds of a 64-bit count of nanoseconds is [true]
    exactly when the count is below sixty billion. *)
Lemma total_seconds_lt_60 (ns : Z) :
  - 2 ^ 63 < ns < 2 ^ 63 ->
  (lt_60 (total_seconds (Some ns)) = true <-> ns < 60 * 1000000000).
Proof.
  intros Hns. unfold total_seconds, binary_normalize.
  destruct ns as [|p|p].
  - split; [lia|reflexivity].
  - destruct (total_seconds_finite false p) as (m' & e' & -> & H); [lia|].
    exact (H eq_refl).
  - destruct (total_seconds_finite true p) as (m' & e' & -> & _); [lia|].
    split; [lia|reflexivity].
Qed.

Lemma seconds_lt_60 (ns : Z) :
  (seconds ns < 60)%Q <-> ns < 60 * 1000000000.
Proof. unfold seconds, Qlt. simpl. lia. Qed.

(** *** Differences of timestamps *)

Lemma sub_datetime_fit (a b : Z) :
  - 2 ^ 63 < b - a < 2 ^ 63 ->
  sub_datetime (Some b) (Some a) = Returns (Some (b - a)).
Proof.
  intros H. unfold sub_datetime, int64_min, int64_max.
  destruct (Z.ltb_spec (b - a) (- 2 ^ 63)); [lia|].
  destruct (Z.ltb_spec (2 ^ 63 - 1) (b - a)); [lia|].
  destruct (Z.eqb_spec (b - a) (- 2 ^ 63)); [lia|]. reflexivity.
Qed.

Lemma sub_datetime_overflow (a b : Z) :
  b - a < - 2 ^ 63 \/ 2 ^ 63 <= b - a ->
  sub_datetime (Some b) (Some a) = Raises OverflowError.
Proof.
  intros H. unfold sub_datetime, int64_min, int64_max.
  destruct (Z.ltb_spec (b - a) (- 2 ^ 63)); [reflexivity|].
  destruct (Z.ltb_spec (2 ^ 63 - 1) (b - a)); [reflexivity|lia].
Qed.

Lemma sub_datetime_raises (t prev : option Z) (e : exn) :
  sub_datetime t prev = Raises e -> e = OverflowError.
Proof.
  unfold sub_datetime. destruct prev as [a|], t as [b|]; try discriminate.
  destruct (_ || _); [congruence|].
  destruct (_ =? _); discriminate.
Qed.

Lemma diff_from_raises (ts : list (option Z)) :
  forall prev e, diff_from prev ts = Raises e -> e = OverflowError.
Proof.
  induction ts as [|t ts IH]; intros prev e; cbn [diff_from]; [discriminate|].
  destruct (sub_datetime t prev) as [d|e'] eqn:E; cbn [rbind].
  - destruct (diff_from t ts) as [ds|e'] eqn:E'; cbn [rbind]; [discriminate|].
    intros [= <-]. exact (IH _ _ E').
  - intros [= <-]. exact (sub_datetime_raises _ _ _ E).
Qed.

Lemma diff_from_length (ts : list (option Z)) :
  forall prev gaps, diff_from prev ts = Returns gaps -> length gaps = length ts.
Proof.
  induction ts as [|t ts IH]; intros prev gaps; cbn [diff_from].
  - intros [= <-]. reflexivity.
  - destruct (sub_datetime t prev) as [d|e]; cbn [rbind]; [|discriminate].
    destruct (diff_from t ts) as [ds|e] eqn:E; cbn [rbind]; [|discriminate].
    intros [= <-]. simpl. f_equal. exact (IH _ _ E).
Qed.

Lemma diff_length (ts gaps : list (option Z)) :
  diff ts = Returns gaps -> length gaps = length ts.
Proof. apply diff_from_length. Qed.

Lemma diff_from_lookup_0 (ts : list (option Z)) (prev : option Z) :
  forall gaps g,
    diff_from prev ts = Returns gaps -> gaps !! 0%nat = Some g ->
    exists t, ts !! 0%nat = Some t /\ sub_datetime t prev = Returns g.
Proof.
  destruct ts as [|t ts]; intros gaps g; cbn [diff_from].
  - intros [= <-]. discriminate.
  - destruct (sub_datetime t prev) as [d|e] eqn:Ed; cbn [rbind];
      [|discriminate].
    destruct (diff_from t ts) as [ds|e]; cbn [rbind]; [|discriminate].
    intros [= <-] [= <-]. exists t. split; [reflexivity|exact Ed].
Qed.

Lemma diff_from_lookup_S (ts : list (option Z)) :
  forall prev gaps i g,
    diff_from prev ts = Returns gaps -> gaps !! S i = Some g ->
    exists p t, ts !! i = Some p /\ ts !! S i = Some t /\
                sub_datetime t p = Returns g.
Proof.
  induction ts as [|t0 ts IH]; intros prev gaps i g; cbn [diff_from].
  - intros [= <-]. discriminate.
  - destruct (sub_datetime t0 prev) as [d|e]; cbn [rbind]; [|discriminate].
    destruct (diff_from t0 ts) as [ds|e] eqn:E; cbn [rbind]; [|discriminate].
    intros [= <-]. rewrite !lookup_cons. intros Hg. destruct i as [|i].
    + destruct (diff_from_lookup_0 ts t0 ds g E Hg) as (t & Ht & Hs).
      exists t0, t. repeat split; assumption.
    + exact (IH t0 ds i g E Hg).
Qed.

(** When every gap fits, the differences are computed. *)
Lemma diff_from_returns (ts : list (option Z)) :
  forall prev,
    (forall a b, prev = Some a -> ts !! 0%nat = Some (Some b) ->
                 - 2 ^ 63 < b - a < 2 ^ 63) ->
    gaps_fit ts ->
    exists gaps, diff_from prev ts = Returns gaps.
Proof.
  induction ts as [|t ts IH]; intros prev Hp Hfit; [eexists; reflexivity|].
  cbn [diff_from].
  assert (Hd : exists d, sub_datetime t prev = Returns d).
  { destruct prev as [a|], t as [b|]; try (eexists; reflexivity).
    rewrite sub_datetime_fit; [eexists; reflexivity|].
    apply Hp; reflexivity. }
  destruct Hd as [d ->]. cbn [rbind].
  destruct (IH t) as [gaps ->].
  - intros a b -> Hb. apply (Hfit 0%nat a b); [reflexivity|exact Hb].
  - intros i a b Ha Hb. apply (Hfit (S i) a b); assumption.
  - eexists; reflexivity.
Qed.

Lemma diff_returns (ts : list (option Z)) :
  gaps_fit ts -> exists gaps, diff ts = Returns gaps.
Proof. intros H. apply diff_from_returns; [discriminate|exact H]. Qed.

(** One gap that does not fit in an int64 makes the differences raise. *)
Lemma diff_overflow (ts : list (option Z)) (i : nat) (a b : Z) :
  ts !! i = Some (Some a) -> ts !! S i = Some (Some b) ->
  b - a < - 2 ^ 63 \/ 2 ^ 63 <= b - a ->
  diff ts = Raises OverflowError.
Proof.
  intros Ha Hb Hover. destruct (diff ts) as [gaps|e] eqn:E.
  - exfalso. pose proof (diff_length ts gaps E) as Hlen.
    destruct (lookup_lt_is_Some_2 gaps (S i)) as [g Hg].
    { rewrite Hlen. apply lookup_lt_is_Some_1. eauto. }
    destruct (diff_from_lookup_S ts None gaps i g E Hg)
      as (p & t & Hp & Ht & Hs).
    rewrite Ha in Hp. rewrite Hb in Ht.
    injection Hp as <-. injection Ht as <-.
    rewrite (sub_datetime_overflow a b Hover) in Hs. discriminate.
  - f_equal. exact (diff_from_raises ts None e E).
Qed.

Lemma gaps_fit_two (a b : Z) :
  - 2 ^ 63 < b - a < 2 ^ 63 -> gaps_fit [Some a; Some b].
Proof.
  intros H [|[|i]] a' b'; cbn; try discriminate.
  intros [= <-] [= <-]. exact H.
Qed.

(** *** The flags of rule 3 *)

Lemma suspicious_flags_spec (ts : list (option Z)) :
  gaps_fit ts ->
  exists flags,
    suspicious_flags ts = Returns flags /\
    length flags = length ts /\
    (forall b, flags !! 0%nat = Some b -> b = false) /\
    (forall i, flags !! S i = Some true <->
       exists a b, ts !! i = Some (Some a) /\ ts !! S i = Some (Some b) /\
                   (seconds (b - a) < 60)%Q).
Proof.
  intros Hfit. destruct (diff_returns ts Hfit) as [gaps E].
  unfold suspicious_flags. rewrite E. cbn [rbind].
  eexists. split; [reflexivity|]. split; [|split].
  - rewrite !List.length_map. exact (diff_length ts gaps E).
  - intros b. rewrite !lookup_map.
    destruct (gaps !! 0%nat) as [g|] eqn:Hg; [|discriminate].
    destruct (diff_from_lookup_0 ts None gaps g E Hg) as (t & _ & Hs).
    destruct t; injection Hs as <-; intros [= <-]; reflexivity.
  - intros i. rewrite !lookup_map. split.
    + destruct (gaps !! S i) as [g|] eqn:Hg; [|discriminate].
      destruct (diff_from_lookup_S ts None gaps i g E Hg)
        as (p & t & Hp & Ht & Hs).
      destruct p as [a|], t as [b|];
        try (injection Hs as <-; discriminate).
      rewrite (sub_datetime_fit a b (Hfit i a b Hp Ht)) in Hs.
      injection Hs as <-. cbn [fmap option_fmap option_map].
      intros [= H]. exists a, b. repeat split; try assumption.
      apply seconds_lt_60.
      apply (total_seconds_lt_60 (b - a) (Hfit i a b Hp Ht)). exact H.
    + intros (a & b & Ha & Hb & Hlt).
      destruct (lookup_lt_is_Some_2 gaps (S i)) as [g Hg].
      { rewrite (diff_length ts gaps E). apply lookup_lt_is_Some_1. eauto. }
      destruct (diff_from_lookup_S ts None gaps i g E Hg)
        as (p & t & Hp & Ht & Hs).
      rewrite Ha in Hp. rewrite Hb in Ht.
      injection Hp as <-. injection Ht as <-.
      rewrite (sub_datetime_fit a b (Hfit i a b Ha Hb)) in Hs.
      injection Hs as <-. rewrite Hg. cbn [fmap option_fmap option_map].
      f_equal. apply (total_seconds_lt_60 (b - a) (Hfit i a b Ha Hb)).
      apply seconds_lt_60. exact Hlt.
Qed.

(** Rule 3 and the whole function on a column whose gaps fit. *)
Lemma suspicious_time_run (df : DataFrame) (ts : list (option Z))
  (flags : list bool) :
  Timestamp df = Some ts -> suspicious_flags ts = Returns flags ->
  suspicious_time_rule df = (Returns tt, (suspicious_time_rule df).2) /\
  SuspiciousTime (suspicious_time_rule df).2 = Some flags /\
  (luhn_rule_completes df ->
   SuspiciousTime (rule_based_detection df).2 = Some flags).
Proof.
  intros Hts Hf. rewrite suspicious_time_rule_spec, Hts.
  pose proof Hf as Hf'. unfold suspicious_flags in Hf'.
  destruct (diff ts) as [gaps|e] eqn:E; [|discriminate].
  cbn [rbind] in Hf'. injection Hf' as <-.
  split; [reflexivity|]. split; [reflexivity|].
  intros Hl.
  destruct (rule_based_detection_run df Hl) as (d & Er & _ & _ & Sd & _).
  { intros ts' Hts'. rewrite Hts in Hts'. injection Hts' as <-. eauto. }
  rewrite Er. destruct (mark_fraudulent_keeps d) as (_ & _ & ->).
  exact (proj1 Sd ts _ Hts Hf).
Qed.

(** An overflow in rule 3 ends the function there: the columns of the first
    two rules are written, and neither TimeGap nor SuspiciousTime nor
    Fraudulent is. *)
Lemma rule_based_detection_overflow (df : DataFrame) (ts : list (option Z)) :
  Timestamp df = Some ts -> diff ts = Raises OverflowError ->
  luhn_rule_completes df ->
  suspicious_time_rule df = (Raises OverflowError, df) /\
  (rule_based_detection df).1 = Raises OverflowError /\
  TimeGap (rule_based_detection df).2 = TimeGap df /\
  SuspiciousTime (rule_based_detection df).2 = SuspiciousTime df /\
  Fraudulent (rule_based_detection df).2 = Fraudulent df.
Proof.
  intros Hts Hd Hl. split.
  - rewrite suspicious_time_rule_spec, Hts, Hd. reflexivity.
  - destruct df as [cn am ts0 lv ha tg st fr an oc].
    cbn [Timestamp] in Hts. subst ts0.
    unfold luhn_rule_completes in Hl. cbn [CardNumber] in Hl.
    unfold rule_based_detection, luhn_rule, high_amount_rule,
      suspicious_time_rule, when_column, bind, lift, setitem, getitem,
      set_LuhnValid, set_HighAmount.
    destruct cn as [cards|];
      cbn [CardNumber Amount Timestamp LuhnValid HighAmount TimeGap
           SuspiciousTime Fraudulent fst snd].
    + destruct (Hl cards eq_refl) as [valid ->].
      destruct am;
        cbn [CardNumber Amount Timestamp LuhnValid HighAmount TimeGap
             SuspiciousTime Fraudulent fst snd];
        rewrite Hd; repeat split.
    + destruct am;
        cbn [CardNumber Amount Timestamp LuhnValid HighAmount TimeGap
             SuspiciousTime Fraudulent fst snd];
        rewrite Hd; repeat split.
Qed.

(** C5. On a batch with a Timestamp column in which every timestamp is less
    than 2^63 nanoseconds away from the one of the row before it, rule 3
    gives every row a SuspiciousTime flag; the flag of the first row is
    never true, and the flag of a later row is true exactly when that row
    and the row just before it both have a timestamp and the gap between
    them, in seconds, is strictly less than 60. The rows are taken in the
    order of the batch, chronological or not. The whole function leaves the
    same flags when its Luhn rule completes. *)
Theorem suspicious_time_gap (df : DataFrame) (ts : list (option Z)) :
  Timestamp df = Some ts -> gaps_fit ts ->
  exists flags,
    suspicious_time_rule df
    = (Returns tt, (suspicious_time_rule df).2) /\
    SuspiciousTime (suspicious_time_rule df).2 = Some flags /\
    (luhn_rule_completes df ->
     SuspiciousTime (rule_based_detection df).2 = Some flags) /\
    length flags = length ts /\
    (forall b, flags !! 0%nat = Some b -> b = false) /\
    (forall i, flags !! S i = Some true <->
       exists a b, ts !! i = Some (Some a) /\ ts !! S i = Some (Some b) /\
                   (seconds (b - a) < 60)%Q).
Proof.
  intros Hts Hfit.
  destruct (suspicious_flags_spec ts Hfit) as (flags & Hf & Hlen & H0 & HS).
  exists flags.
  destruct (suspicious_time_run df ts flags Hts Hf) as (E & S & R).
  repeat split; try assumption; apply HS.
Qed.

(** Two rows 30 seconds apart: the second is flagged; 90 seconds apart: it
    is not. *)
Lemma suspicious_time_gap_witness :
  SuspiciousTime (rule_based_detection (two_rows 30000000000)).2
  = Some [false; true] /\
  SuspiciousTime (rule_based_detection (two_rows 90000000000)).2
  = Some [false; false].
Proof.
  split.
  - destruct (suspicious_time_gap (two_rows 30000000000) _ eq_refl)
      as (flags & _ & Hf & H & _).
    + apply gaps_fit_two. lia.
    + rewrite (H (two_rows_luhn _)), <- Hf. vm_compute. reflexivity.
  - destruct (suspicious_time_gap (two_rows 90000000000) _ eq_refl)
      as (flags & _ & Hf & H & _).
    + apply gaps_fit_two. lia.
    + rewrite (H (two_rows_luhn _)), <- Hf. vm_compute. reflexivity.
Defined.

Lemma centuries_luhn :
  luhn_rule_completes centuries_apart /\ luhn_rule_completes centuries_back.
Proof.
  split; intros cards E; injection E as <-; eexists; vm_compute; reflexivity.
Qed.

(** Two transactions in chronological order, on 1700-01-01 and on
    2200-01-01: the gap of five centuries is not an int64 of nanoseconds;
    rule 3 raises [OverflowError], the function raises it too, and no row
    gets a SuspiciousTime flag. *)
Lemma suspicious_time_gap_overflow :
  Timestamp centuries_apart = Some [Some date_1700; Some date_2200] /\
  chronological [Some date_1700; Some date_2200] /\
  suspicious_time_rule centuries_apart = (Raises OverflowError, centuries_apart)
  /\ (rule_based_detection centuries_apart).1 = Raises OverflowError /\
  SuspiciousTime (rule_based_detection centuries_apart).2 = None.
Proof.
  split; [reflexivity|]. split.
  { intros [|[|i]] a b; cbn; try discriminate.
    intros [= <-] [= <-]. unfold date_1700, date_2200. lia. }
  destruct (rule_based_detection_overflow centuries_apart _ eq_refl)
    as (E & R & _ & S & _).
  - apply (diff_overflow _ 0 date_1700 date_2200); try reflexivity.
    right. unfold date_1700, date_2200. lia.
  - exact (proj1 centuries_luhn).
  - repeat split; assumption.
Qed.

(** C10. On a batch with a Timestamp column in which every timestamp is
    less than 2^63 nanoseconds away from the one of the row before it, a
    row whose timestamp is strictly earlier than the timestamp of the row
    just before it is flagged SuspiciousTime: the gap is negative, and the
    rule only asks for a gap below 60 seconds. *)
Theorem suspicious_time_negative_gap
  (df : DataFrame) (ts : list (option Z)) (i : nat) (a b : Z) :
  Timestamp df = Some ts -> gaps_fit ts ->
  ts !! i = Some (Some a) -> ts !! S i = Some (Some b) -> b < a ->
  exists flags,
    suspicious_time_rule df
    = (Returns tt, (suspicious_time_rule df).2) /\
    SuspiciousTime (suspicious_time_rule df).2 = Some flags /\
    (luhn_rule_completes df ->
     SuspiciousTime (rule_based_detection df).2 = Some flags) /\
    flags !! S i = Some true.
Proof.
  intros Hts Hfit Ha Hb Hlt.
  destruct (suspicious_flags_spec ts Hfit) as (flags & Hf & _ & _ & HS).
  exists flags.
  destruct (suspicious_time_run df ts flags Hts Hf) as (E & S & R).
  repeat split; try assumption.
  apply HS. exists a, b. repeat split; try assumption.
  apply seconds_lt_60. lia.
Qed.

(** A second row 45 seconds before the first is flagged. *)
Lemma suspicious_time_negative_gap_witness :
  SuspiciousTime (rule_based_detection (two_rows (-45000000000))).2
  = Some [false; true].
Proof.
  destruct (suspicious_time_negative_gap (two_rows (-45000000000)) _ 0
              1700000000000000000 (1700000000000000000 + -45000000000)
              eq_refl
              (gaps_fit_two 1700000000000000000
                 (1700000000000000000 + -45000000000) ltac:(lia))
              eq_refl eq_refl ltac:(lia))
    as (flags & _ & Hf & H & _).
  rewrite (H (two_rows_luhn _)), <- Hf. vm_compute. reflexivity.
Defined.

(** The same two transactions with the later one first, 2200-01-01 and then
    1700-01-01: the second row is strictly earlier than the first, the
    negative gap is not an int64 of nanoseconds, and the row gets no flag:
    the function raises [OverflowError]. *)
Lemma suspicious_time_negative_gap_overflow :
  Timestamp centuries_back = Some [Some date_2200; Some date_1700] /\
  date_1700 < date_2200 /\
  suspicious_time_rule centuries_back = (Raises OverflowError, centuries_back)
  /\ (rule_based_detection centuries_back).1 = Raises OverflowError /\
  SuspiciousTime (rule_based_detection centuries_back).2 = None.
Proof.
  split; [reflexivity|]. split; [unfold date_1700, date_2200; lia|].
  destruct (rule_based_detection_overflow centuries_back _ eq_refl)
    as (E & R & _ & S & _).
  - apply (diff_overflow _ 0 date_2200 date_1700); try reflexivity.
    left. unfold date_1700, date_2200. lia.
  - exact (proj2 centuries_luhn).
  - repeat split; assumption.
Qed.

(** ** The scoring endpoint *)

(** C3 as it is stated fails: an integer Amount beyond the range of the
    doubles is numeric, and the handler raises on it instead of returning
    the five fields. *)
Lemma detect_fraud_huge_amount :
  detect_fraud {[ "CardNumber"%string := JStr (py "4539148803436467");
                  "Amount"%string := JInt (10 ^ 400) ]}
  = Raises OverflowError.
Proof. vm_compute. reflexivity. Qed.

(** C3, as amended. For every online request whose CardNumber is a string
    in which every digit character is a decimal digit (every ASCII string
    is one) and whose Amount is a JSON float or an integer below [2 ^ 1023]
    in magnitude, the handler returns exactly the fields CardNumber, Amount,
    LuhnValid, HighAmount and Fraudulent, in that order, with Fraudulent =
    LuhnValid and HighAmount. *)
Theorem detect_fraud_response
  (data : gmap string json) (card : str) (amount : json) :
  data !! "CardNumber"%string = Some (JStr card) ->
  data !! "Amount"%string = Some amount ->
  (exists n, amount = JInt n /\ Z.abs n < 2 ^ 1023) \/
  (exists y, amount = JFloat y) ->
  (forall c, In c card -> is_digit c = true -> is_decimal c = true) ->
  exists x luhn_valid,
    py_float amount = Returns x /\
    luhn_algorithm card = Returns luhn_valid /\
    detect_fraud data
    = Returns [ ("CardNumber"%string, JStr card);
                ("Amount"%string, JFloat x);
                ("LuhnValid"%string, JBool luhn_valid);
                ("HighAmount"%string, JBool (gt_1000 x));
                ("Fraudulent"%string, JBool (luhn_valid && gt_1000 x)) ].
Proof.
  intros HC HA Hnum Hcard.
  assert (Hx : exists x, py_float amount = Returns x).
  { destruct Hnum as [(n & -> & Hn) | (y & ->)].
    - destruct (float_of_int_gt_1000 n Hn) as (x & Hx & _). eauto.
    - simpl. eauto. }
  destruct Hx as [x Hx].
  destruct (luhn_algorithm_returns card Hcard) as [lv Hlv].
  exists x, lv. split; [exact Hx|]. split; [exact Hlv|].
  unfold detect_fraud, dict_get. rewrite HC, HA. cbn [default from_option id].
  rewrite Hx. cbn [rbind call_luhn_algorithm]. rewrite Hlv. reflexivity.
Qed.

Lemma ascii_card (card : str) :
  List.forallb (fun c => (c <? 128)%N) card = true ->
  forall c, In c card -> is_digit c = true -> is_decimal c = true.
Proof.
  intros H c Hin Hd. rewrite List.forallb_forall in H.
  specialize (H c Hin). apply N.ltb_lt in H.
  rewrite is_digit_ascii in Hd by exact H.
  unfold is_decimal. rewrite (to_decimal_ascii_digit c Hd). reflexivity.
Qed.

(** The requests of the specification: the card 4539148803436467 with the
    amount 1500 is valid, high and fraudulent; with the amount 500 it is
    not fraudulent. *)
Lemma detect_fraud_response_witness :
  detect_fraud {[ "CardNumber"%string := JStr (py "4539148803436467");
                  "Amount"%string := JInt 1500 ]}
  = Returns [ ("CardNumber"%string, JStr (py "4539148803436467"));
              ("Amount"%string, JFloat float_1500);
              ("LuhnValid"%string, JBool true);
              ("HighAmount"%string, JBool true);
              ("Fraudulent"%string, JBool true) ] /\
  detect_fraud {[ "CardNumber"%string := JStr (py "4539148803436467");
                  "Amount"%string := JInt 500 ]}
  = Returns [ ("CardNumber"%string, JStr (py "4539148803436467"));
              ("Amount"%string, JFloat float_500);
              ("LuhnValid"%string, JBool true);
              ("HighAmount"%string, JBool false);
              ("Fraudulent"%string, JBool false) ].
Proof.
  split.
  - destruct (detect_fraud_response
                {[ "CardNumber"%string := JStr (py "4539148803436467");
                   "Amount"%string := JInt 1500 ]}
                (py "4539148803436467") (JInt 1500))
      as (x & lv & Hx & Hlv & H).
    + reflexivity.
    + reflexivity.
    + left. exists 1500. split; reflexivity.
    + apply ascii_card. reflexivity.
    + vm_compute in Hx, Hlv. injection Hx as <-. injection Hlv as <-.
      exact H.
  - destruct (detect_fraud_response
                {[ "CardNumber"%string := JStr (py "4539148803436467");
                   "Amount"%string := JInt 500 ]}
                (py "4539148803436467") (JInt 500))
      as (x & lv & Hx & Hlv & H).
    + reflexivity.
    + reflexivity.
    + left. exists 500. split; reflexivity.
    + apply ascii_card. reflexivity.
    + vm_compute in Hx, Hlv. injection Hx as <-. injection Hlv as <-.
      exact H.
Defined.

(** C7 as it is stated fails: with the Amount ["abc"], and with no Amount
    at all, the answer is the status 500, not a status of the 4xx class. *)
Lemma malformed_amount_not_client_error :
  ~ client_error
      (post_detect {[ "CardNumber"%string := JStr (py "4539148803436467");
                      "Amount"%string := JStr (py "abc") ]}) /\
  ~ client_error
      (post_detect {[ "CardNumber"%string := JStr (py "4539148803436467") ]}).
Proof. split; vm_compute; intros [_ H]; discriminate H. Qed.

(** C7, as amended. A missing or null Amount makes [float] raise
    [TypeError], and a string that is no float literal (such as ["abc"])
    makes it raise [ValueError]; the handler does not catch the exception
    that [float] raises on the Amount, and the caller receives the
    server-error status 500, with no body of fields; the endpoint answers
    every such request. *)
Theorem malformed_amount_server_error (data : gmap string json) :
  (data !! "Amount"%string = None \/ data !! "Amount"%string = Some JNull ->
   py_float (dict_get data "Amount") = Raises TypeError) /\
  (forall s, data !! "Amount"%string = Some (JStr s) ->
     float_of_str s = Raises ValueError ->
     py_float (dict_get data "Amount") = Raises ValueError) /\
  (forall e, py_float (dict_get data "Amount") = Raises e ->
     detect_fraud data = Raises e /\
     post_detect data = mk_response 500 None /\
     server_error (post_detect data) /\
     ~ client_error (post_detect data)).
Proof.
  split; [|split].
  - unfold dict_get. intros [-> | ->]; reflexivity.
  - unfold dict_get. intros s -> H. exact H.
  - intros e He.
    assert (Hd : detect_fraud data = Raises e).
    { unfold detect_fraud. rewrite He. reflexivity. }
    unfold post_detect, server_error, client_error. rewrite Hd. simpl.
    repeat split; lia.
Qed.

(** The Amount ["abc"]: a [ValueError], and the status 500. *)
Lemma malformed_amount_server_error_witness :
  detect_fraud {[ "CardNumber"%string := JStr (py "4539148803436467");
                  "Amount"%string := JStr (py "abc") ]}
  = Raises ValueError /\
  status (post_detect
            {[ "CardNumber"%string := JStr (py "4539148803436467");
               "Amount"%string := JStr (py "abc") ]}) = 500.
Proof.
  destruct (malformed_amount_server_error
              {[ "CardNumber"%string := JStr (py "4539148803436467");
                 "Amount"%string := JStr (py "abc") ]}) as (_ & Hs & H).
  destruct (H ValueError) as (Hd & Hp & _).
  - apply (Hs (py "abc")); reflexivity.
  - split; [exact Hd|]. rewrite Hp. reflexivity.
Defined.

(** ** Anomaly detection *)

Lemma anomaly_detection_spec
  (model : Type) (fit : features -> result model)
  (predict : model -> features -> result (list Z)) (df : DataFrame) :
  anomaly_detection model fit predict df =
  let feats := match Amount df with
               | Some amounts => AmountOnly amounts
               | None => WholeFrame df
               end in
  match fit feats with
  | Returns m =>
      match predict m feats with
      | Returns labels =>
          (Returns tt, set_Anomaly (List.map is_outlier labels) df)
      | Raises e => (Raises e, df)
      end
  | Raises e => (Raises e, df)
  end.
Proof.
  unfold anomaly_detection, bind, lift, setitem. cbv zeta.
  destruct (fit _) as [m|e]; [|reflexivity].
  destruct (predict m _); reflexivity.
Qed.

(** C8. Whatever the isolation forest answers, anomaly detection leaves
    every column other than Anomaly as it was, the rule-based Fraudulent
    column included. When the model fits and predicts, the call returns and
    the Anomaly column is written: it is the column of the predicted labels
    with -1 mapped to true and every other label to false. The call returns
    in no other case: when the model raises, the call raises the same
    exception and the frame is not touched at all. *)
Theorem anomaly_detection_frame
  (model : Type) (fit : features -> result model)
  (predict : model -> features -> result (list Z)) (df : DataFrame) :
  let outcome := anomaly_detection model fit predict df in
  let df' := outcome.2 in
  let feats := match Amount df with
               | Some amounts => AmountOnly amounts
               | None => WholeFrame df
               end in
  CardNumber df' = CardNumber df /\ Amount df' = Amount df /\
  Timestamp df' = Timestamp df /\ LuhnValid df' = LuhnValid df /\
  HighAmount df' = HighAmount df /\ TimeGap df' = TimeGap df /\
  SuspiciousTime df' = SuspiciousTime df /\
  Fraudulent df' = Fraudulent df /\
  other_columns df' = other_columns df /\
  match outcome.1 with
  | Returns _ =>
      exists feats m labels,
        feats = match Amount df with
                | Some amounts => AmountOnly amounts
                | None => WholeFrame df
                end /\
        fit feats = Returns m /\ predict m feats = Returns labels /\
        Anomaly df' = Some (List.map is_outlier labels) /\
        forall i, List.map is_outlier labels !! i = Some true
                  <-> labels !! i = Some (-1)
  | Raises _ => df' = df
  end /\
  (forall m labels,
     fit feats = Returns m -> predict m feats = Returns labels ->
     outcome = (Returns tt, set_Anomaly (List.map is_outlier labels) df) /\
     Anomaly df' = Some (List.map is_outlier labels) /\
     length (List.map is_outlier labels) = length labels) /\
  (forall e, fit feats = Raises e -> outcome = (Raises e, df)) /\
  (forall m e,
     fit feats = Returns m -> predict m feats = Raises e ->
     outcome = (Raises e, df)).
Proof.
  intros outcome df' feats. subst df' outcome.
  rewrite anomaly_detection_spec. cbv zeta. fold feats.
  destruct (fit feats) as [m|e] eqn:Ef;
    [destruct (predict m feats) as [labels|e] eqn:Ep|];
    cbn [fst snd set_Anomaly CardNumber Amount Timestamp LuhnValid HighAmount
         TimeGap SuspiciousTime Fraudulent Anomaly other_columns];
    repeat match goal with |- _ /\ _ => split end; try reflexivity.
  - exists feats, m, labels. repeat split; try assumption.
    + rewrite lookup_map. intros H.
      destruct (labels !! i) as [x|]; [|discriminate].
      simpl in H. injection H as H. unfold is_outlier in H.
      destruct (x =? -1) eqn:E; [|discriminate].
      apply Z.eqb_eq in E. congruence.
    + rewrite lookup_map. intros ->. reflexivity.
  - intros m' labels' [= <-] Hp. rewrite Ep in Hp. injection Hp as <-.
    repeat split. apply List.length_map.
  - discriminate.
  - intros m' e [= <-] Hp. congruence.
  - intros m' labels' [= <-] Hp. congruence.
  - discriminate.
  - intros m' e' [= <-] Hp. congruence.
  - discriminate.
  - intros e' [= <-]. reflexivity.
  - discriminate.
Qed.

(** The two-row batch, after the rules, with a model that labels the
    amounts above 1000 as outliers: the call returns, the first row is an
    anomaly and the second is not, and the verdicts of the rules are the
    ones they were. *)
Lemma anomaly_detection_frame_witness :
  let label_amounts (m : unit) (feats : features) :=
    match feats with
    | AmountOnly amounts =>
        Returns (List.map (fun x => if gt_1000 x then -1 else 1) amounts)
    | WholeFrame _ => Raises ValueError
    end in
  let df := (rule_based_detection (two_rows 90000000000)).2 in
  let outcome :=
    anomaly_detection unit (fun _ => Returns tt) label_amounts df in
  outcome.1 = Returns tt /\
  Anomaly outcome.2 = Some [true; false] /\
  Fraudulent outcome.2 = Some [true; false] /\
  Fraudulent df = Some [true; false].
Proof.
  intros label_amounts df outcome.
  destruct (anomaly_detection_frame unit (fun _ => Returns tt) label_amounts df)
    as (_ & _ & _ & _ & _ & _ & _ & HF & _ & _ & H & _).
  destruct (H tt [-1; 1] eq_refl) as (E & HA & _);
    [vm_compute; reflexivity|].
  fold outcome in E, HA, HF.
  split; [rewrite E; reflexivity|]. split; [exact HA|].
  split; [rewrite HF|]; vm_compute; reflexivity.
Defined.

(** ** A digit that is not decimal *)

(** [isdigit] accepts the superscript two, and [int] does not: on such a
    card number the function raises instead of returning. *)
Lemma luhn_algorithm_superscript :
  isdigit [0xb2%N] = true /\ luhn_algorithm [0xb2%N] = Raises ValueError.
Proof. split; reflexivity. Qed.

(** * Further properties *)

(** ** Strings of ASCII digits *)

Lemma ascii_digits_app (s t : str) :
  ascii_digits (s ++ t) <-> ascii_digits s /\ ascii_digits t.
Proof.
  unfold ascii_digits. rewrite List.forallb_app, andb_true_iff. reflexivity.
Qed.

Lemma ascii_digits_cons (c : char) (s : str) :
  ascii_digits (c :: s) <-> is_ascii_digit c = true /\ ascii_digits s.
Proof. unfold ascii_digits. simpl. rewrite andb_true_iff. reflexivity. Qed.

Lemma ascii_digit_range (c : char) :
  is_ascii_digit c = true <-> (48 <= c <= 57)%N.
Proof.
  unfold is_ascii_digit. rewrite andb_true_iff, !N.leb_le. reflexivity.
Qed.

Lemma ascii_value_range (c : char) :
  is_ascii_digit c = true -> 0 <= ascii_value c <= 9.
Proof. rewrite ascii_digit_range. unfold ascii_value. lia. Qed.

Lemma ascii_digit_is_digit (d : Z) :
  0 <= d <= 9 ->
  is_ascii_digit (ascii_digit d) = true /\ ascii_value (ascii_digit d) = d.
Proof.
  intros H. rewrite ascii_digit_range. unfold ascii_value, ascii_digit. lia.
Qed.

Lemma ascii_value_inj (a b : char) :
  is_ascii_digit a = true -> is_ascii_digit b = true ->
  ascii_value a = ascii_value b -> a = b.
Proof. rewrite !ascii_digit_range. unfold ascii_value. lia. Qed.

Lemma replace_space_ascii_digits (s : str) :
  ascii_digits s -> replace_space s = s.
Proof.
  unfold ascii_digits, replace_space. induction s as [|c s IH]; [reflexivity|].
  simpl. rewrite andb_true_iff. intros [Hc Hs].
  apply ascii_digit_range in Hc.
  assert (E : (c =? SPACE)%N = false) by (apply N.eqb_neq; unfold SPACE; lia).
  rewrite E. simpl. f_equal. auto.
Qed.

Lemma digit_values_ascii (s : str) :
  ascii_digits s -> digit_values s = List.map ascii_value s.
Proof.
  unfold ascii_digits, digit_values. induction s as [|c s IH]; [reflexivity|].
  simpl. rewrite andb_true_iff. intros [Hc Hs].
  rewrite (to_decimal_ascii_digit c Hc). simpl. f_equal. auto.
Qed.

Lemma ascii_digits_decimal (s : str) :
  ascii_digits s -> forall c, In c s -> is_decimal c = true.
Proof.
  unfold ascii_digits. rewrite List.forallb_forall. intros H c Hc.
  unfold is_decimal. rewrite (to_decimal_ascii_digit c (H c Hc)). reflexivity.
Qed.

(** On a string of ASCII digits that is not empty, the function is the
    checksum test. *)
Lemma luhn_algorithm_ascii_digits (s : str) :
  s <> [] -> ascii_digits s ->
  luhn_algorithm s
  = Returns (luhn_sum_from 0 (List.rev (List.map ascii_value s)) mod 10 =? 0).
Proof.
  intros Hne Hs. unfold luhn_algorithm.
  rewrite (replace_space_ascii_digits s Hs).
  rewrite isdigit_true;
    [|exact Hne
     |intros c Hc; apply is_decimal_is_digit;
      exact (ascii_digits_decimal s Hs c Hc)].
  cbn [negb]. rewrite luhn_loop_decimal.
  - cbn [rbind]. rewrite digit_values_rev, digit_values_ascii by exact Hs.
    reflexivity.
  - apply List.Forall_forall. intros c Hc. apply List.in_rev in Hc.
    exact (ascii_digits_decimal s Hs c Hc).
Qed.

(** ** The checksum, position by position *)

Lemma luhn_sum_from_app (l1 l2 : list Z) :
  forall idx,
    luhn_sum_from idx (l1 ++ l2)
    = luhn_sum_from idx l1 + luhn_sum_from (idx + length l1) l2.
Proof.
  induction l1 as [|d l1 IH]; intros idx; simpl.
  - rewrite Nat.add_0_r. reflexivity.
  - rewrite IH. replace (S idx + length l1)%nat with (idx + S (length l1))%nat
      by lia. lia.
Qed.

Lemma luhn_digit_range (idx : nat) (d : Z) :
  0 <= d <= 9 -> 0 <= luhn_digit idx d <= 9.
Proof.
  intros H. unfold luhn_digit.
  destruct (Nat.odd idx); [|lia].
  destruct (Z.ltb_spec 9 (2 * d)); lia.
Qed.

Lemma luhn_digit_inj (idx : nat) (a b : Z) :
  0 <= a <= 9 -> 0 <= b <= 9 -> luhn_digit idx a = luhn_digit idx b -> a = b.
Proof.
  intros Ha Hb. unfold luhn_digit.
  destruct (Nat.odd idx); [|lia].
  destruct (Z.ltb_spec 9 (2 * a)), (Z.ltb_spec 9 (2 * b)); lia.
Qed.

(** Two sums that are both multiples of 10 and differ by less than 10 are
    equal. *)
Lemma mod_10_close (t x y : Z) :
  (t + x) mod 10 = 0 -> (t + y) mod 10 = 0 -> -10 < x - y < 10 -> x = y.
Proof.
  intros Hx Hy Hd.
  apply Z.mod_divide in Hx; [|lia]. apply Z.mod_divide in Hy; [|lia].
  destruct Hx as [kx Hx], Hy as [ky Hy]. lia.
Qed.

Lemma mod_10_eqb (x : Z) : (x mod 10 =? 0) = true <-> x mod 10 = 0.
Proof. apply Z.eqb_eq. Qed.

(** The checksum test of a string of ASCII digits, with one character set
    apart: [post] is what follows it, so it sits at the position
    [length post] of the reversed string. *)
Lemma luhn_algorithm_split (pre post : str) (c : char) :
  ascii_digits (pre ++ c :: post) ->
  luhn_algorithm (pre ++ c :: post)
  = Returns
      ((luhn_sum_from 0 (List.rev (List.map ascii_value post))
        + luhn_sum_from (S (length post))
            (List.rev (List.map ascii_value pre))
        + luhn_digit (length post) (ascii_value c)) mod 10 =? 0).
Proof.
  intros Hs. rewrite luhn_algorithm_ascii_digits; [|destruct pre; discriminate|exact Hs].
  do 2 f_equal. f_equal.
  rewrite List.map_app, List.rev_app_distr. cbn [List.map List.rev].
  rewrite !luhn_sum_from_app. cbn [luhn_sum_from].
  rewrite List.length_app, !List.length_rev, !List.length_map.
  cbn [length]. replace (0 + (length post + 1))%nat with (S (length post))
    by lia. simpl (0 + length post)%nat. lia.
Qed.

Lemma odd_succ (k : nat) : Nat.odd (S k) = negb (Nat.odd k).
Proof. rewrite Nat.odd_succ, <- Nat.negb_odd. reflexivity. Qed.

(** ** Check digits and typing errors *)

(** X1. Every string of ASCII digits can be completed by exactly one check
    digit: one digit from 0 to 9, and only one, makes the string followed by
    that digit a valid card number. *)
Theorem luhn_check_digit (payload : str) :
  ascii_digits payload ->
  exists d, 0 <= d <= 9 /\
    luhn_algorithm (payload ++ [ascii_digit d]) = Returns true /\
    forall d', 0 <= d' <= 9 ->
      luhn_algorithm (payload ++ [ascii_digit d']) = Returns true -> d' = d.
Proof.
  intros Hp.
  set (t := luhn_sum_from 0 (List.rev (List.map ascii_value [])) 
            + luhn_sum_from (S (@length char []))
                (List.rev (List.map ascii_value payload))).
  assert (Hl : forall d, 0 <= d <= 9 ->
            luhn_algorithm (payload ++ [ascii_digit d])
            = Returns ((t + d) mod 10 =? 0)).
  { intros d Hd. destruct (ascii_digit_is_digit d Hd) as [Hc Hv].
    rewrite luhn_algorithm_split.
    - rewrite Hv. reflexivity.
    - apply ascii_digits_app. split; [exact Hp|].
      apply ascii_digits_cons. split; [exact Hc|reflexivity]. }
  exists ((- t) mod 10).
  assert (Hr : 0 <= (- t) mod 10 <= 9)
    by (pose proof (Z.mod_pos_bound (- t) 10); lia).
  assert (Hz : (t + (- t) mod 10) mod 10 = 0).
  { rewrite Z.add_mod_idemp_r by lia.
    replace (t + - t) with 0 by lia. reflexivity. }
  split; [exact Hr|]. split.
  - rewrite Hl by exact Hr. f_equal. apply Z.eqb_eq. exact Hz.
  - intros d' Hd' H. rewrite Hl in H by exact Hd'.
    injection H as H. apply Z.eqb_eq in H.
    apply (mod_10_close t); [exact H|exact Hz|lia].
Qed.

(** The fifteen digits 453914880343646 are completed by 7. *)
Lemma luhn_check_digit_witness :
  exists d, 0 <= d <= 9 /\
    luhn_algorithm (py "453914880343646" ++ [ascii_digit d]) = Returns true /\
    forall d', 0 <= d' <= 9 ->
      luhn_algorithm (py "453914880343646" ++ [ascii_digit d'])
      = Returns true -> d' = d.
Proof. apply (luhn_check_digit (py "453914880343646")). reflexivity. Defined.

(** X2. A single mistyped digit is always caught: if a string of ASCII
    digits is valid, the string with one digit replaced by another digit is
    not. *)
Theorem luhn_single_digit_error (pre post : str) (a b : char) :
  ascii_digits (pre ++ a :: post) -> is_ascii_digit b = true -> a <> b ->
  luhn_algorithm (pre ++ a :: post) = Returns true ->
  luhn_algorithm (pre ++ b :: post) = Returns false.
Proof.
  intros Hs Hb Hab Hvalid.
  apply ascii_digits_app in Hs as Hs'. destruct Hs' as [Hpre Hs'].
  apply ascii_digits_cons in Hs' as [Ha Hpost].
  assert (Hs2 : ascii_digits (pre ++ b :: post)).
  { apply ascii_digits_app. split; [exact Hpre|].
    apply ascii_digits_cons. split; assumption. }
  rewrite luhn_algorithm_split in Hvalid by exact Hs.
  rewrite luhn_algorithm_split by exact Hs2.
  injection Hvalid as Hvalid. apply Z.eqb_eq in Hvalid.
  f_equal. apply Z.eqb_neq. intros Hvalid2.
  pose proof (ascii_value_range a Ha) as Ra.
  pose proof (ascii_value_range b Hb) as Rb.
  pose proof (luhn_digit_range (length post) _ Ra).
  pose proof (luhn_digit_range (length post) _ Rb).
  apply Hab. apply ascii_value_inj; [assumption|assumption|].
  apply (luhn_digit_inj (length post)); [assumption|assumption|].
  eapply mod_10_close; [exact Hvalid|exact Hvalid2|lia].
Qed.

(** The valid number 4539148803436467 with its last digit turned into 8. *)
Lemma luhn_single_digit_error_witness :
  luhn_algorithm (py "453914880343646" ++ 56%N :: []) = Returns false.
Proof.
  apply (luhn_single_digit_error (py "453914880343646") [] 55%N 56%N).
  - reflexivity.
  - reflexivity.
  - discriminate.
  - vm_compute. reflexivity.
Defined.

(** X3. Two adjacent digits typed in the wrong order are caught, unless they
    are 0 and 9: if a string of ASCII digits is valid, the string with two
    different neighbouring digits swapped is not, except for the pair 0, 9. *)
Theorem luhn_transposition_error (pre post : str) (a b : char) :
  ascii_digits (pre ++ a :: b :: post) -> a <> b ->
  ~ ((a = ascii_digit 0 /\ b = ascii_digit 9) \/
     (a = ascii_digit 9 /\ b = ascii_digit 0)) ->
  luhn_algorithm (pre ++ a :: b :: post) = Returns true ->
  luhn_algorithm (pre ++ b :: a :: post) = Returns false.
Proof.
  intros Hs Hab H09 Hvalid.
  apply ascii_digits_app in Hs as Hs'. destruct Hs' as [Hpre Hs'].
  apply ascii_digits_cons in Hs' as [Ha Hs'].
  apply ascii_digits_cons in Hs' as [Hb Hpost].
  assert (Hs2 : ascii_digits (pre ++ b :: a :: post)).
  { apply ascii_digits_app. split; [exact Hpre|].
    apply ascii_digits_cons. split; [exact Hb|].
    apply ascii_digits_cons. split; assumption. }
  rewrite luhn_algorithm_split in Hvalid by exact Hs.
  rewrite luhn_algorithm_split by exact Hs2.
  injection Hvalid as Hvalid. apply Z.eqb_eq in Hvalid.
  f_equal. apply Z.eqb_neq. intros Hvalid2.
  cbn [List.map List.rev length] in Hvalid, Hvalid2.
  rewrite !luhn_sum_from_app in Hvalid, Hvalid2.
  cbn [luhn_sum_from] in Hvalid, Hvalid2.
  rewrite !List.length_rev, !List.length_map in Hvalid, Hvalid2.
  simpl (0 + length post)%nat in Hvalid, Hvalid2.
  pose proof (ascii_value_range a Ha) as Ra.
  pose proof (ascii_value_range b Hb) as Rb.
  set (va := ascii_value a) in *. set (vb := ascii_value b) in *.
  set (k := length post) in *.
  set (t := luhn_sum_from 0 (List.rev (List.map ascii_value post))
            + luhn_sum_from (S (S k)) (List.rev (List.map ascii_value pre)))
    in *.
  assert (E : luhn_digit k vb + luhn_digit (S k) va
              = luhn_digit k va + luhn_digit (S k) vb).
  { apply (mod_10_close t).
    - rewrite <- Hvalid. f_equal. lia.
    - rewrite <- Hvalid2. f_equal. lia.
    - pose proof (luhn_digit_range k _ Ra).
      pose proof (luhn_digit_range k _ Rb).
      pose proof (luhn_digit_range (S k) _ Ra).
      pose proof (luhn_digit_range (S k) _ Rb).
      unfold luhn_digit in *. rewrite odd_succ in *.
      destruct (Nat.odd k); cbn [negb] in *;
        destruct (Z.ltb_spec 9 (2 * va)), (Z.ltb_spec 9 (2 * vb)); lia. }
  unfold luhn_digit in E. rewrite odd_succ in E.
  assert (Hcases : va = vb \/ (va = 0 /\ vb = 9) \/ (va = 9 /\ vb = 0)).
  { destruct (Nat.odd k); cbn [negb] in E;
      destruct (Z.ltb_spec 9 (2 * va)), (Z.ltb_spec 9 (2 * vb)); lia. }
  destruct Hcases as [E1|[[E1 E2]|[E1 E2]]].
  - apply Hab. apply ascii_value_inj; assumption.
  - apply H09. left. split.
    + apply ascii_value_inj; [assumption|reflexivity|exact E1].
    + apply ascii_value_inj; [assumption|reflexivity|exact E2].
  - apply H09. right. split.
    + apply ascii_value_inj; [assumption|reflexivity|exact E1].
    + apply ascii_value_inj; [assumption|reflexivity|exact E2].
Qed.

(** The valid number 4539148803436467 with its last two digits swapped. *)
Lemma luhn_transposition_error_witness :
  luhn_algorithm (py "45391488034364" ++ 55%N :: 54%N :: []) = Returns false.
Proof.
  apply (luhn_transposition_error (py "45391488034364") [] 54%N 55%N).
  - reflexivity.
  - discriminate.
  - vm_compute. intros [[H _]|[H _]]; discriminate H.
  - vm_compute. reflexivity.
Defined.

(** ** The loop on any string *)

Lemma luhn_loop_app (l1 l2 : str) :
  forall idx total,
    luhn_loop (l1 ++ l2) idx total
    = let! t := luhn_loop l1 idx total in
      luhn_loop l2 (idx + length l1) t.
Proof.
  induction l1 as [|c l1 IH]; intros idx total.
  - cbn [app luhn_loop rbind length]. rewrite Nat.add_0_r. reflexivity.
  - cbn [app luhn_loop length]. destruct (int_of_char c) as [n|e];
      cbn [rbind]; [|reflexivity].
    rewrite IH. replace (S idx + length l1)%nat with (idx + S (length l1))%nat
      by lia. reflexivity.
Qed.

Lemma luhn_loop_raises (l : str) :
  forall idx total e,
    luhn_loop l idx total = Raises e ->
    e = ValueError /\ exists c, In c l /\ is_decimal c = false.
Proof.
  induction l as [|c l IH]; intros idx total e; cbn [luhn_loop].
  - discriminate.
  - unfold int_of_char, is_decimal.
    destruct (to_decimal c) as [d|] eqn:E; cbn [rbind].
    + intros H. destruct (IH _ _ _ H) as (He & c' & Hin & Hc').
      split; [exact He|]. exists c'. split; [right; exact Hin|exact Hc'].
    + intros [= <-]. split; [reflexivity|]. exists c.
      split; [left; reflexivity|]. unfold is_decimal. rewrite E. reflexivity.
Qed.

Lemma luhn_loop_not_decimal (l : str) :
  forall idx total,
    (exists c, In c l /\ is_decimal c = false) ->
    luhn_loop l idx total = Raises ValueError.
Proof.
  induction l as [|c l IH]; intros idx total (c' & Hin & Hc').
  - destruct Hin.
  - cbn [luhn_loop]. unfold int_of_char, is_decimal in *.
    destruct (to_decimal c) as [d|] eqn:E; cbn [rbind]; [|reflexivity].
    apply IH. exists c'. split; [|exact Hc'].
    destruct Hin as [<-|Hin]; [|exact Hin]. rewrite E in Hc'. discriminate.
Qed.

Lemma replace_space_app (s t : str) :
  replace_space (s ++ t) = replace_space s ++ replace_space t.
Proof. unfold replace_space. apply List.filter_app. Qed.

(** ** What does not change the verdict *)

(** X4. The swap that is not caught: exchanging a 0 and a 9 that stand next
    to each other never changes the answer of the function, whatever stands
    before and after them. *)
Theorem luhn_swap_09_unnoticed (pre post : str) :
  luhn_algorithm (pre ++ ascii_digit 0 :: ascii_digit 9 :: post)
  = luhn_algorithm (pre ++ ascii_digit 9 :: ascii_digit 0 :: post).
Proof.
  unfold luhn_algorithm. rewrite !replace_space_app.
  change (replace_space (ascii_digit 0 :: ascii_digit 9 :: post))
    with (ascii_digit 0 :: ascii_digit 9 :: replace_space post).
  change (replace_space (ascii_digit 9 :: ascii_digit 0 :: post))
    with (ascii_digit 9 :: ascii_digit 0 :: replace_space post).
  set (p := replace_space pre). set (q := replace_space post).
  assert (Hd : isdigit (p ++ ascii_digit 0 :: ascii_digit 9 :: q)
               = isdigit (p ++ ascii_digit 9 :: ascii_digit 0 :: q)).
  { unfold isdigit.
    rewrite !List.forallb_app. cbn [List.forallb].
    change (is_digit (ascii_digit 0)) with true.
    change (is_digit (ascii_digit 9)) with true.
    destruct p; reflexivity. }
  rewrite Hd. clear Hd.
  destruct (isdigit (p ++ ascii_digit 9 :: ascii_digit 0 :: q));
    cbn [negb]; [|reflexivity].
  rewrite !List.rev_app_distr. cbn [List.rev]. rewrite <- !List.app_assoc.
  cbn [app]. rewrite !luhn_loop_app.
  destruct (luhn_loop (List.rev q) 0 0) as [t|e]; cbn [rbind]; [|reflexivity].
  cbn [luhn_loop].
  change (int_of_char (ascii_digit 0)) with (Returns 0).
  change (int_of_char (ascii_digit 9)) with (Returns 9).
  cbn [rbind]. rewrite !odd_mod_2, odd_succ.
  destruct (Nat.odd (0 + length (List.rev q))); cbn [negb];
    match goal with
    | |- rbind (luhn_loop _ _ ?x) _ = rbind (luhn_loop _ _ ?y) _ =>
        replace x with y
          by (change (9 <? 0 * 2) with false; change (9 <? 9 * 2) with true;
              cbv iota; lia)
    end; reflexivity.
Qed.

(** X5. A space typed anywhere in the number changes nothing. *)
Theorem luhn_space_ignored (s1 s2 : str) :
  luhn_algorithm (s1 ++ SPACE :: s2) = luhn_algorithm (s1 ++ s2).
Proof.
  unfold luhn_algorithm. rewrite !replace_space_app. reflexivity.
Qed.

(** X6. Leading zeros change nothing: when something is left of a string
    once its spaces are stripped, the string with a 0 put in front gets the
    same answer, exception included. *)
Theorem luhn_leading_zero (s : str) :
  replace_space s <> [] ->
  luhn_algorithm (ascii_digit 0 :: s) = luhn_algorithm s.
Proof.
  intros Hne. unfold luhn_algorithm.
  change (replace_space (ascii_digit 0 :: s))
    with (ascii_digit 0 :: replace_space s).
  destruct (replace_space s) as [|c t] eqn:E; [congruence|].
  assert (Hd : isdigit (ascii_digit 0 :: c :: t) = isdigit (c :: t))
    by reflexivity.
  rewrite Hd. destruct (isdigit (c :: t)); cbn [negb]; [|reflexivity].
  change (List.rev (ascii_digit 0 :: c :: t))
    with (List.rev (c :: t) ++ [ascii_digit 0]).
  rewrite luhn_loop_app.
  destruct (luhn_loop (List.rev (c :: t)) 0 0) as [total|e]; cbn [rbind];
    [|reflexivity].
  cbn [luhn_loop]. change (int_of_char (ascii_digit 0)) with (Returns 0).
  cbn [rbind]. rewrite odd_mod_2.
  destruct (Nat.odd _); cbn; rewrite Z.add_0_r; reflexivity.
Qed.

(** The valid number 4539148803436467 with a 0 in front. *)
Lemma luhn_leading_zero_witness :
  luhn_algorithm (ascii_digit 0 :: py "4539148803436467") = Returns true.
Proof.
  rewrite (luhn_leading_zero (py "4539148803436467")).
  - vm_compute. reflexivity.
  - vm_compute. discriminate.
Defined.

(** ** When the validator raises *)

(** X7. The only exception of the function is [ValueError], and it is
    raised exactly when something is left once the spaces are stripped, all
    of it passes [isdigit], and some character of it is not a decimal
    digit. *)
Theorem luhn_algorithm_raises (s : str) (e : exn) :
  luhn_algorithm s = Raises e <->
  e = ValueError /\ isdigit (replace_space s) = true /\
  exists c, In c (replace_space s) /\ is_decimal c = false.
Proof.
  unfold luhn_algorithm. split.
  - destruct (isdigit (replace_space s)); cbn [negb]; [|discriminate].
    destruct (luhn_loop _ 0 0) as [t|e'] eqn:E; cbn [rbind]; [discriminate|].
    intros [= <-]. destruct (luhn_loop_raises _ _ _ _ E) as (He & c & Hin & Hc).
    split; [exact He|]. split; [reflexivity|].
    exists c. split; [|exact Hc]. apply List.in_rev. exact Hin.
  - intros (-> & Hd & c & Hin & Hc). rewrite Hd. cbn [negb].
    rewrite luhn_loop_not_decimal; [reflexivity|].
    exists c. split; [|exact Hc]. apply List.in_rev.
    rewrite List.rev_involutive. exact Hin.
Qed.

(** X8. On a string of ASCII characters the function never raises, and it
    answers [True] only if the string without its spaces is a string of
    ASCII digits that is not empty. *)
Theorem luhn_algorithm_ascii (s : str) :
  List.forallb (fun c => (c <? 128)%N) s = true ->
  exists valid,
    luhn_algorithm s = Returns valid /\
    (valid = true ->
     replace_space s <> [] /\ ascii_digits (replace_space s)).
Proof.
  intros Hs.
  destruct (luhn_algorithm_returns s (ascii_card s Hs)) as [valid Hv].
  exists valid. split; [exact Hv|]. intros ->.
  unfold luhn_algorithm in Hv.
  destruct (isdigit (replace_space s)) eqn:E; cbn [negb] in Hv;
    [|discriminate].
  split; [intros H; rewrite H in E; discriminate|].
  apply List.forallb_forall. intros c Hc.
  rewrite <- is_digit_ascii.
  - exact (isdigit_forall _ E c Hc).
  - apply in_replace_space in Hc as [Hc _].
    rewrite List.forallb_forall in Hs. apply N.ltb_lt. exact (Hs c Hc).
Qed.

(** A card number with a letter: an answer, and not [True]. *)
Lemma luhn_algorithm_ascii_witness :
  exists valid,
    luhn_algorithm (py "4539x48803436467") = Returns valid /\
    (valid = true ->
     replace_space (py "4539x48803436467") <> [] /\
     ascii_digits (replace_space (py "4539x48803436467"))).
Proof. apply (luhn_algorithm_ascii (py "4539x48803436467")). reflexivity. Defined.

(** ** The batch rules, case by case *)

Ltac simpl_rules :=
  cbn [CardNumber Amount Timestamp LuhnValid HighAmount TimeGap SuspiciousTime
       Fraudulent Anomaly other_columns fst snd].

Ltac unfold_rules :=
  unfold rule_based_detection, luhn_rule, high_amount_rule,
    suspicious_time_rule, mark_fraudulent, when_column, bind, lift, setitem,
    getitem, set_LuhnValid, set_HighAmount, set_TimeGap, set_SuspiciousTime,
    set_Fraudulent;
  simpl_rules.

Ltac split_rules :=
  simpl_rules;
  repeat (match goal with
          | |- context [match ?x with Some _ => _ | None => _ end] =>
              destruct x eqn:?
          | |- context [match apply luhn_algorithm ?c with _ => _ end] =>
              destruct (apply luhn_algorithm c) eqn:?
          | |- context [match diff ?c with _ => _ end] =>
              destruct (diff c) eqn:?
          end; simpl_rules).

(** X9. The batch function only reads the columns CardNumber, Amount and
    Timestamp: whatever its outcome, an exception included, these columns,
    the Anomaly column and every column it does not know are left as they
    were. *)
Theorem rule_based_detection_inputs (df : DataFrame) :
  inputs (rule_based_detection df).2 = inputs df /\
  Anomaly (rule_based_detection df).2 = Anomaly df.
Proof.
  destruct df as [cn am ts lv ha tg st fr an oc]. unfold inputs.
  unfold_rules. split_rules; split; reflexivity.
Qed.

Lemma luhn_algorithm_value_error (s : str) (e : exn) :
  luhn_algorithm s = Raises e -> e = ValueError.
Proof.
  unfold luhn_algorithm.
  destruct (isdigit (replace_space s)); cbn [negb]; [|discriminate].
  destruct (luhn_loop _ 0 0) as [t|e'] eqn:E; cbn [rbind]; [discriminate|].
  intros [= <-]. exact (proj1 (luhn_loop_raises _ _ _ _ E)).
Qed.

Lemma apply_luhn_raises (cards : list str) :
  (exists c, In c cards /\ luhn_algorithm c = Raises ValueError) ->
  apply luhn_algorithm cards = Raises ValueError.
Proof.
  induction cards as [|c0 cards IH]; intros (c & Hin & Hc).
  - destruct Hin.
  - cbn [apply]. destruct (luhn_algorithm c0) as [b|e] eqn:E; cbn [rbind].
    + rewrite IH; [reflexivity|]. exists c. split; [|exact Hc].
      destruct Hin as [<-|Hin]; [congruence|exact Hin].
    + rewrite (luhn_algorithm_value_error c0 e E). reflexivity.
Qed.

Lemma apply_length {A B} (f : A -> result B) (l : list A) :
  forall v, apply f l = Returns v -> length v = length l.
Proof.
  induction l as [|a l IH]; intros v; cbn [apply].
  - intros [= <-]. reflexivity.
  - destruct (f a) as [b|e]; cbn [rbind]; [|discriminate].
    destruct (apply f l) as [bs|e]; cbn [rbind]; [|discriminate].
    intros [= <-]. simpl. f_equal. apply IH. reflexivity.
Qed.

Lemma apply_lookup {A B} (f : A -> result B) (l : list A) :
  forall v i a,
    apply f l = Returns v -> l !! i = Some a ->
    exists b, f a = Returns b /\ v !! i = Some b.
Proof.
  induction l as [|a0 l IH]; intros v i a; cbn [apply].
  - intros _ H. rewrite lookup_nil in H. discriminate.
  - destruct (f a0) as [b0|e] eqn:E0; cbn [rbind]; [|discriminate].
    destruct (apply f l) as [bs|e] eqn:El; cbn [rbind]; [|discriminate].
    intros [= <-]. destruct i as [|i]; cbn.
    + intros [= <-]. exists b0. split; [exact E0|reflexivity].
    + intros H. exact (IH bs i a eq_refl H).
Qed.

(** ** Errors of the batch function *)

(** X10. One card number on which the validator raises aborts the whole
    batch: the function raises [ValueError] and leaves the frame exactly as
    it was, without any of the new columns. *)
Theorem rule_based_detection_bad_card (df : DataFrame) (cards : list str) :
  CardNumber df = Some cards ->
  (exists c, In c cards /\ luhn_algorithm c = Raises ValueError) ->
  rule_based_detection df = (Raises ValueError, df).
Proof.
  intros HC Hbad. apply apply_luhn_raises in Hbad.
  unfold rule_based_detection, bind, luhn_rule, when_column, lift.
  rewrite HC, Hbad. reflexivity.
Qed.

(** A batch whose second card number is a superscript two. *)
Lemma rule_based_detection_bad_card_witness :
  rule_based_detection
    (mk_frame (Some [py "4539148803436467"; [0xb2%N]])
       (Some [float_1500; float_500]) None None None None None None None ∅)
  = (Raises ValueError,
     mk_frame (Some [py "4539148803436467"; [0xb2%N]])
       (Some [float_1500; float_500]) None None None None None None None ∅).
Proof.
  apply (rule_based_detection_bad_card _ [py "4539148803436467"; [0xb2%N]]).
  - reflexivity.
  - exists [0xb2%N]. split; [right; left; reflexivity|reflexivity].
Defined.



(** ** The shape of the batch *)

Ltac solve_rows :=
  repeat match goal with
         | H : forall v, Some ?l = Some v -> length v = _ |- _ =>
             pose proof (H l eq_refl); clear H
         | H : apply luhn_algorithm _ = Returns _ |- _ =>
             apply apply_length in H
         | H : diff _ = Returns _ |- _ =>
             apply diff_length in H
         end;
  unfold series_and, series_or;
  rewrite ?length_zip_with, ?List.length_map; lia.

Lemma rule_based_detection_keeps_rows (n : nat) (df : DataFrame) :
  rows n df -> rows n (rule_based_detection df).2.
Proof.
  destruct df as [cn am ts lv ha tg st fr an oc].
  unfold rows, has_rows. simpl_rules.
  intros (H1 & H2 & H3 & H4 & H5 & H6 & H7 & H8 & H9 & H10).
  unfold_rules. split_rules;
    repeat split; try assumption;
    try (intros v Hv; first [discriminate Hv | injection Hv as <-; solve_rows]).
Qed.

(** X12. On a frame whose columns all have [n] rows, the batch function
    keeps that shape in every outcome: each column it writes has [n] rows.
    When it returns, every row [i] below [n] has its four flags, and its
    verdict is LuhnValid and (HighAmount or SuspiciousTime) of that row. *)
Theorem rule_based_detection_rows (n : nat) (df : DataFrame) :
  rows n df ->
  rows n (rule_based_detection df).2 /\
  forall df', rule_based_detection df = (Returns tt, df') ->
    exists lvs has sts frs,
      LuhnValid df' = Some lvs /\ HighAmount df' = Some has /\
      SuspiciousTime df' = Some sts /\ Fraudulent df' = Some frs /\
      forall i, (i < n)%nat ->
        exists l h s,
          lvs !! i = Some l /\ has !! i = Some h /\ sts !! i = Some s /\
          frs !! i = Some (l && (h || s)).
Proof.
  intros Hrows.
  pose proof (rule_based_detection_keeps_rows n df Hrows) as Hkeep.
  split; [exact Hkeep|]. intros df' Hret. rewrite Hret in Hkeep.
  destruct (rule_based_detection_returns df df' Hret)
    as (d & lvs & has & sts & EL & EH & ES & ->).
  destruct Hkeep as (_ & _ & _ & HL & HH & _ & HS & _).
  cbn [snd set_Fraudulent LuhnValid HighAmount SuspiciousTime] in HL, HH, HS.
  exists lvs, has, sts, (series_and lvs (series_or has sts)).
  cbn [set_Fraudulent LuhnValid HighAmount SuspiciousTime Fraudulent].
  repeat split; try assumption.
  intros i Hi.
  destruct (lookup_lt_is_Some_2 lvs i) as [l Hl]; [rewrite (HL _ EL); exact Hi|].
  destruct (lookup_lt_is_Some_2 has i) as [h Hh]; [rewrite (HH _ EH); exact Hi|].
  destruct (lookup_lt_is_Some_2 sts i) as [s Hs]; [rewrite (HS _ ES); exact Hi|].
  exists l, h, s. repeat split; try assumption.
  unfold series_and, series_or. rewrite !lookup_zip_with, Hl, Hh, Hs.
  reflexivity.
Qed.

(** The two-row batch of the examples: two rows before, two rows after, and
    the verdicts true and false. *)
Lemma rule_based_detection_rows_witness :
  rows 2 (rule_based_detection (two_rows 90000000000)).2 /\
  Fraudulent (rule_based_detection (two_rows 90000000000)).2
  = Some [true; false].
Proof.
  destruct (rule_based_detection_rows 2 (two_rows 90000000000)) as [H _].
  - unfold rows, has_rows, two_rows. simpl_rules.
    repeat split; try discriminate; intros v [= <-]; reflexivity.
  - split; [exact H|]. vm_compute. reflexivity.
Defined.

(** ** Running the batch function again *)

(** X13. The batch function is idempotent: run on the frame it has left,
    whether it returned or raised, it ends the same way and leaves the same
    frame. *)
Theorem rule_based_detection_twice (df : DataFrame) :
  rule_based_detection (rule_based_detection df).2 = rule_based_detection df.
Proof.
  destruct df as [cn am ts lv ha tg st fr an oc].
  unfold_rules.
  repeat (match goal with
          | H : apply luhn_algorithm ?c = _
            |- context [apply luhn_algorithm ?c] => rewrite H
          | H : diff ?c = _ |- context [diff ?c] => rewrite H
          | |- context [match ?x with Some _ => _ | None => _ end] =>
              is_var x; destruct x
          | |- context [match apply luhn_algorithm ?c with _ => _ end] =>
              is_var c; destruct (apply luhn_algorithm c) eqn:?
          | |- context [match diff ?c with _ => _ end] =>
              is_var c; destruct (diff c) eqn:?
          end; simpl_rules);
    reflexivity.
Qed.

(** ** The columns the rules write *)

Lemma rule_based_detection_columns
  (df df' : DataFrame) (cards : list str) (amounts : list float) :
  CardNumber df = Some cards -> Amount df = Some amounts ->
  rule_based_detection df = (Returns tt, df') ->
  exists valid,
    apply luhn_algorithm cards = Returns valid /\
    LuhnValid df' = Some valid /\
    HighAmount df' = Some (List.map gt_1000 amounts).
Proof.
  destruct df as [cn am ts lv ha tg st fr an oc]. simpl_rules.
  intros -> ->. unfold_rules. split_rules; intros [= <-]; simpl_rules; eauto.
Qed.

Lemma rule_based_detection_time_gap
  (df : DataFrame) (ts gaps : list (option Z)) :
  Timestamp df = Some ts -> diff ts = Returns gaps ->
  luhn_rule_completes df ->
  TimeGap (rule_based_detection df).2 = Some (List.map total_seconds gaps).
Proof.
  destruct df as [cn am ts0 lv ha tg st fr an oc]. simpl_rules.
  intros -> Hg H. unfold luhn_rule_completes in H. cbn [CardNumber] in H.
  destruct cn as [cards|].
  - destruct (H cards eq_refl) as [valid Hv].
    unfold_rules. rewrite Hv. simpl_rules.
    destruct am; simpl_rules; rewrite Hg; split_rules; reflexivity.
  - unfold_rules.
    destruct am; simpl_rules; rewrite Hg; split_rules; reflexivity.
Qed.

(** X14. On a batch with a Timestamp column whose gaps all fit, when the
    Luhn rule completes, the TimeGap column has one float64 per row. It is
    NaN on the first row and on a row where one of the two timestamps is
    NaT. On every other row it is the gap to the row before, in nanoseconds
    as a float64, divided by the float64 1e9: [+0.0] for a gap of zero, a
    finite double with the sign of the gap otherwise, and it is below 60.0
    exactly when the gap is below 60 seconds. *)
Theorem time_gap_column (df : DataFrame) (ts : list (option Z)) :
  Timestamp df = Some ts -> gaps_fit ts -> luhn_rule_completes df ->
  exists gaps,
    TimeGap (rule_based_detection df).2 = Some gaps /\
    length gaps = length ts /\
    (forall g, gaps !! 0%nat = Some g -> g = S754_nan) /\
    (forall i g, gaps !! S i = Some g ->
       match ts !! i, ts !! S i with
       | Some (Some a), Some (Some b) =>
           g = SFdiv prec emax
                 (binary_normalize prec emax (b - a) 0 false) float_1e9 /\
           (b = a -> g = S754_zero false) /\
           (b <> a -> exists m e, g = S754_finite (b <? a) m e) /\
           (SFltb g float_60 = true <-> (seconds (b - a) < 60)%Q)
       | _, _ => g = S754_nan
       end).
Proof.
  intros Hts Hfit Hl. destruct (diff_returns ts Hfit) as [gaps E].
  eexists. split.
  - exact (rule_based_detection_time_gap df ts gaps Hts E Hl).
  - split; [|split].
    + rewrite List.length_map. exact (diff_length ts gaps E).
    + intros g. rewrite lookup_map.
      destruct (gaps !! 0%nat) as [d|] eqn:Hd; [|discriminate].
      destruct (diff_from_lookup_0 ts None gaps d E Hd) as (t & _ & Hs).
      destruct t; injection Hs as <-; intros [= <-]; reflexivity.
    + intros i g. rewrite lookup_map.
      destruct (gaps !! S i) as [d|] eqn:Hd; [|discriminate].
      destruct (diff_from_lookup_S ts None gaps i d E Hd)
        as (p & t & Hp & Ht & Hs).
      rewrite Hp, Ht. intros [= <-].
      destruct p as [a|], t as [b|]; try (injection Hs as <-; reflexivity).
      pose proof (Hfit i a b Hp Ht) as Hab.
      rewrite (sub_datetime_fit a b Hab) in Hs. injection Hs as <-.
      split; [reflexivity|]. split; [|split].
      * intros ->. rewrite Z.sub_diag. reflexivity.
      * intros Hne.
        destruct (total_seconds_sign (b - a) Hab ltac:(lia)) as (m & e & ->).
        exists m, e. f_equal.
        destruct (Z.ltb_spec (b - a) 0), (Z.ltb_spec b a); try reflexivity; lia.
      * rewrite seconds_lt_60. exact (total_seconds_lt_60 (b - a) Hab).
Qed.

(** Two rows a tenth of a second apart: the gap is the double nearest to
    0.1, which is a little more than 1/10. *)
Lemma time_gap_column_witness :
  TimeGap (rule_based_detection (two_rows 100000000)).2
  = Some [S754_nan; S754_finite false 7205759403792794 (-56)] /\
  exists q, float_value (S754_finite false 7205759403792794 (-56)) = Some q /\
            (1 # 10 < q)%Q.
Proof.
  destruct (time_gap_column (two_rows 100000000) _ eq_refl
              (gaps_fit_two 1700000000000000000
                 (1700000000000000000 + 100000000) ltac:(lia))
              (two_rows_luhn _))
    as (gaps & Hg & _).
  split.
  - rewrite Hg. vm_compute in Hg. injection Hg as <-. reflexivity.
  - eexists. split; [reflexivity|]. vm_compute. reflexivity.
Defined.

(** ** The batch and the online verdicts *)

(** X15. The two paths agree on a transaction: for a row of a batch that
    the batch function returned on, the online handler, given the card
    number and the amount of that row, returns the LuhnValid and HighAmount
    flags of the row, and the batch verdict of the row is the online verdict
    or (LuhnValid and SuspiciousTime). *)
Theorem batch_and_online_agree
  (n : nat) (df df' : DataFrame) (cards : list str) (amounts : list float)
  (i : nat) (card : str) (x : float) (data : gmap string json) :
  rows n df ->
  CardNumber df = Some cards -> Amount df = Some amounts ->
  rule_based_detection df = (Returns tt, df') ->
  cards !! i = Some card -> amounts !! i = Some x ->
  data !! "CardNumber"%string = Some (JStr card) ->
  data !! "Amount"%string = Some (JFloat x) ->
  exists lvs has sts frs lv ha st,
    LuhnValid df' = Some lvs /\ HighAmount df' = Some has /\
    SuspiciousTime df' = Some sts /\ Fraudulent df' = Some frs /\
    lvs !! i = Some lv /\ has !! i = Some ha /\ sts !! i = Some st /\
    frs !! i = Some ((lv && ha) || (lv && st)) /\
    detect_fraud data
    = Returns [ ("CardNumber"%string, JStr card);
                ("Amount"%string, JFloat x);
                ("LuhnValid"%string, JBool lv);
                ("HighAmount"%string, JBool ha);
                ("Fraudulent"%string, JBool (lv && ha)) ].
Proof.
  intros Hrows HC HA Hret Hcard Hx HdC HdA.
  destruct (rule_based_detection_columns df df' cards amounts HC HA Hret)
    as (valid & Hv & EL & EH).
  destruct (apply_lookup _ _ _ _ _ Hv Hcard) as (lv & Hlv & Hvi).
  pose proof (rule_based_detection_keeps_rows n df Hrows) as Hkeep.
  rewrite Hret in Hkeep.
  destruct (rule_based_detection_returns df df' Hret)
    as (d & lvs & has & sts & EL' & EH' & ES' & ->).
  cbn [snd set_Fraudulent LuhnValid HighAmount SuspiciousTime Fraudulent]
    in *.
  rewrite EL in EL'. injection EL' as <-.
  rewrite EH in EH'. injection EH' as <-.
  assert (Hn : (i < n)%nat).
  { destruct Hrows as (H1 & _). rewrite <- (H1 _ HC).
    apply lookup_lt_is_Some_1. eauto. }
  destruct Hkeep as (_ & _ & _ & _ & _ & _ & HS & _).
  cbn [SuspiciousTime] in HS.
  destruct (lookup_lt_is_Some_2 sts i) as [st Hst];
    [rewrite (HS _ ES'); exact Hn|].
  exists valid, (List.map gt_1000 amounts), sts,
    (series_and valid (series_or (List.map gt_1000 amounts) sts)),
    lv, (gt_1000 x), st.
  repeat split; try assumption.
  - rewrite lookup_map, Hx. reflexivity.
  - unfold series_and, series_or.
    rewrite !lookup_zip_with, lookup_map, Hvi, Hx, Hst. cbn.
    destruct lv, (gt_1000 x), st; reflexivity.
  - unfold detect_fraud, dict_get. rewrite HdC, HdA.
    cbn [default from_option id py_float rbind call_luhn_algorithm].
    rewrite Hlv. reflexivity.
Qed.

(** The second row of the two-row batch, 90 seconds after the first, and the
    online request with its card number and its amount 500.0. *)
Lemma batch_and_online_agree_witness :
  exists frs,
    Fraudulent (rule_based_detection (two_rows 90000000000)).2 = Some frs /\
    frs !! 1%nat = Some false /\
    detect_fraud {[ "CardNumber"%string := JStr (py "4539148803436467");
                    "Amount"%string := JFloat float_500 ]}
    = Returns [ ("CardNumber"%string, JStr (py "4539148803436467"));
                ("Amount"%string, JFloat float_500);
                ("LuhnValid"%string, JBool true);
                ("HighAmount"%string, JBool false);
                ("Fraudulent"%string, JBool false) ].
Proof.
  destruct (batch_and_online_agree 2 (two_rows 90000000000)
              (rule_based_detection (two_rows 90000000000)).2
              [py "4539148803436467"; py "4539148803436467"]
              [float_1500; float_500] 1 (py "4539148803436467") float_500
              {[ "CardNumber"%string := JStr (py "4539148803436467");
                 "Amount"%string := JFloat float_500 ]})
    as (lvs & has & sts & frs & lv & ha & st
        & EL & EH & ES & EF & Hl & Hh & Hs & Hf & Hd).
  - unfold rows, has_rows, two_rows. simpl_rules.
    repeat split; try discriminate; intros v [= <-]; reflexivity.
  - reflexivity.
  - reflexivity.
  - vm_compute. reflexivity.
  - reflexivity.
  - reflexivity.
  - reflexivity.
  - reflexivity.
  - exists frs. split; [exact EF|].
    vm_compute in EL, EH, ES.
    injection EL as <-. injection EH as <-. injection ES as <-.
    vm_compute in Hl, Hh, Hs.
    injection Hl as <-. injection Hh as <-. injection Hs as <-.
    split; [exact Hf|exact Hd].
Defined.

(** ** The two stages of the batch *)

(** X16. On a batch with an Amount column the two stages can be run in
    either order: rule-based detection followed by anomaly detection
    returns a frame exactly when anomaly detection followed by rule-based
    detection returns it. The model is fitted on the amounts alone, which
    the rules do not touch. *)
Theorem stages_commute
  (model : Type) (fit : features -> result model)
  (predict : model -> features -> result (list Z))
  (df d : DataFrame) (amounts : list float) :
  Amount df = Some amounts ->
  (rule_based_detection ;; anomaly_detection model fit predict) df
  = (Returns tt, d)
  <->
  (anomaly_detection model fit predict ;; rule_based_detection) df
  = (Returns tt, d).
Proof.
  destruct df as [cn am ts lv ha tg st fr an oc]. simpl_rules. intros ->.
  unfold anomaly_detection, set_Anomaly. unfold_rules.
  destruct (fit (AmountOnly amounts)) as [m|e] eqn:Ef; simpl_rules;
    [destruct (predict m (AmountOnly amounts)) as [labels|e] eqn:Ep|];
    simpl_rules;
    repeat (match goal with
            | H : apply luhn_algorithm ?c = _
              |- context [apply luhn_algorithm ?c] => rewrite H
            | H : diff ?c = _ |- context [diff ?c] => rewrite H
            | |- context [fit (AmountOnly amounts)] => rewrite Ef
            | |- context [predict m (AmountOnly amounts)] => rewrite Ep
            | |- context [match ?x with Some _ => _ | None => _ end] =>
                is_var x; destruct x
            | |- context [match apply luhn_algorithm ?c with _ => _ end] =>
                is_var c; destruct (apply luhn_algorithm c) eqn:?
            | |- context [match diff ?c with _ => _ end] =>
                is_var c; destruct (diff c) eqn:?
            end; simpl_rules);
    split; intros E; first [discriminate E | exact E].
Qed.

(** ** Card numbers the online handler cannot check *)

(** X17. When the Amount of an online request converts, a CardNumber that
    is missing, null or anything but a string makes the handler raise
    [AttributeError], and a string on which the validator raises makes it
    raise [ValueError]; in both cases the caller receives the status 500. *)
Theorem detect_fraud_card_errors (data : gmap string json) (x : float) :
  py_float (dict_get data "Amount") = Returns x ->
  ((forall s, dict_get data "CardNumber" <> JStr s) ->
   detect_fraud data = Raises AttributeError /\
   status (post_detect data) = 500) /\
  (forall s, dict_get data "CardNumber" = JStr s ->
     luhn_algorithm s = Raises ValueError ->
     detect_fraud data = Raises ValueError /\
     status (post_detect data) = 500).
Proof.
  intros Hx. split.
  - intros Hn.
    assert (E : detect_fraud data = Raises AttributeError).
    { unfold detect_fraud. rewrite Hx. cbn [rbind].
      destruct (dict_get data "CardNumber") as [| | | |s| |] eqn:Ec;
        try reflexivity.
      exfalso. exact (Hn s eq_refl). }
    split; [exact E|]. unfold post_detect. rewrite E. reflexivity.
  - intros s Hs Hl.
    assert (E : detect_fraud data = Raises ValueError).
    { unfold detect_fraud. rewrite Hx, Hs. cbn [rbind call_luhn_algorithm].
      rewrite Hl. reflexivity. }
    split; [exact E|]. unfold post_detect. rewrite E. reflexivity.
Qed.

(** A request without a CardNumber, with the amount 1500. *)
Lemma detect_fraud_card_errors_witness :
  detect_fraud {[ "Amount"%string := JInt 1500 ]} = Raises AttributeError /\
  status (post_detect {[ "Amount"%string := JInt 1500 ]}) = 500.
Proof.
  destruct (detect_fraud_card_errors {[ "Amount"%string := JInt 1500 ]}
              float_1500) as [H _].
  - reflexivity.
  - apply H. intros s. vm_compute. discriminate.
Defined.

(** The two-row batch with a model that accepts any amounts and labels
    every row an inlier: both orders return the same frame. *)
Lemma stages_commute_witness :
  (rule_based_detection ;;
   anomaly_detection unit (fun _ => Returns tt)
     (fun _ feats =>
        match feats with
        | AmountOnly amounts => Returns (List.map (fun _ => 1) amounts)
        | WholeFrame _ => Raises ValueError
        end)) (two_rows 90000000000)
  = (anomaly_detection unit (fun _ => Returns tt)
       (fun _ feats =>
          match feats with
          | AmountOnly amounts => Returns (List.map (fun _ => 1) amounts)
          | WholeFrame _ => Raises ValueError
          end) ;;
     rule_based_detection) (two_rows 90000000000).
Proof.
  match goal with
  | |- ?lhs = ?rhs =>
      assert (E : rhs = (Returns tt, rhs.2)) by (vm_compute; reflexivity)
  end.
  rewrite E.
  apply (stages_commute unit _ _ (two_rows 90000000000) _
           [float_1500; float_500] eq_refl).
  exact E.
Defined.
